(** * Cross-partition order-by merge: the comparators and the peekable producer

    A shallow embedding of
    [azure/cosmos/_execution_context/aio/document_producer.py]:
    the one-item look-ahead producer, the partition-range comparator, the
    single-key comparison of order-by items, the order-by comparator of two
    producers with its validation step, and the comparator of the
    non-streaming (bounded top-K) path.

    Python values are JSON values; a number is an exact rational (an [int],
    or a finite [float], which Python compares by exact value), a [str] is
    its UTF-8 byte string (byte-wise lexicographic order is code-point
    order).  A raised exception is a value of [exn]; every function that can
    raise returns a [result].  [await] is sequential in this module, so a
    coroutine is an ordinary call. *)

From Stdlib Require Import ZArith QArith String List Permutation Sorted OrderedTypeEx.
From stdpp Require Import gmap strings list.

Local Open Scope Z_scope.

#[local] Set Warnings "-register-all".

(** ** Values *)

Inductive pyval : Type :=
| VNone
| VBool (b : bool)
| VNum (q : Q)
| VStr (s : string)
| VArray (l : list pyval)
| VObject (d : gmap string pyval).

(** A Python [dict] with string keys. *)
Abbreviation dict := (gmap string pyval).

(** ** Exceptions and results *)

Inductive type_error : Type :=
| unknown_type (val : pyval)
    (* TypeError("unknown type" + str(val)) *)
| not_supported (op : string) (a b : pyval).
    (* '<op>' not supported between instances of type(a) and type(b) *)

Inductive exn : Type :=
| ValueError (msg : string)
| TypeError (why : type_error)
| KeyError (key : string)
| IndexError
| StopAsyncIteration
| FetchError (detail : string).

Inductive result (A : Type) : Type :=
| Ok (a : A)
| Raise (e : exn).
Arguments Ok {A} a.
Arguments Raise {A} e.

Definition bind {A B} (r : result A) (k : A -> result B) : result B :=
  match r with
  | Ok a => k a
  | Raise e => Raise e
  end.

Notation "x <- r ;; k" := (bind r (fun x => k))
  (at level 100, r at next level, right associativity).

Definition is_ok {A} (r : result A) : bool :=
  match r with Ok _ => true | Raise _ => false end.

Definition is_TypeError {A} (r : result A) : bool :=
  match r with Raise (TypeError _) => true | _ => false end.

Definition is_ValueError {A} (r : result A) : bool :=
  match r with Raise (ValueError _) => true | _ => false end.

(** ** Python's comparison operators on JSON values *)

(** [bool] is a subclass of [int]: [True] is 1 and [False] is 0. *)
Definition as_number (v : pyval) : option Q :=
  match v with
  | VBool b => Some (if b then 1%Q else 0%Q)
  | VNum q => Some q
  | _ => None
  end.

Definition Qltb (x y : Q) : bool :=
  match Qcompare x y with Lt => true | _ => false end.

Definition str_ltb (s t : string) : bool :=
  match String.compare s t with Lt => true | _ => false end.

(** [a == b]; never raises on JSON values. *)
Fixpoint py_eq (a b : pyval) {struct a} : bool :=
  match a, b with
  | VNone, VNone => true
  | VStr s, VStr t => String.eqb s t
  | VArray l, VArray m =>
      (fix all2 (l m : list pyval) {struct l} : bool :=
         match l, m with
         | [], [] => true
         | x :: l', y :: m' => py_eq x y && all2 l' m'
         | _, _ => false
         end) l m
  | VObject d, VObject e =>
      Nat.eqb (size d) (size e) &&
      map_fold (fun k v acc =>
                  acc && match e !! k with
                         | Some w => py_eq v w
                         | None => false
                         end) true d
  | (VBool _ | VNum _), (VBool _ | VNum _) =>
      match as_number a, as_number b with
      | Some p, Some q => Qeq_bool p q
      | _, _ => false
      end
  | _, _ => false
  end.

(** [a < b] (with [gt := false]) and [a > b] (with [gt := true]).  Numbers
    (and booleans) compare by value, strings lexicographically, lists
    lexicographically on the first pair of elements that are not [==];
    every other pairing raises [TypeError]. *)
Fixpoint py_order (gt : bool) (a b : pyval) {struct a} : result bool :=
  match a, b with
  | (VBool _ | VNum _), (VBool _ | VNum _) =>
      match as_number a, as_number b with
      | Some p, Some q => Ok (if gt then Qltb q p else Qltb p q)
      | _, _ => Raise (TypeError (not_supported (if gt then ">" else "<") a b))
      end
  | VStr s, VStr t => Ok (if gt then str_ltb t s else str_ltb s t)
  | VArray l, VArray m =>
      (fix lex (l m : list pyval) {struct l} : result bool :=
         match l, m with
         | [], [] => Ok false
         | [], _ :: _ => Ok (negb gt)
         | _ :: _, [] => Ok gt
         | x :: l', y :: m' =>
             if py_eq x y then lex l' m' else py_order gt x y
         end) l m
  | _, _ => Raise (TypeError (not_supported (if gt then ">" else "<") a b))
  end.

Definition py_gt : pyval -> pyval -> result bool := py_order true.
Definition py_lt : pyval -> pyval -> result bool := py_order false.

(** [seq[i]] on a list: [IndexError] out of range. *)
Definition index {A} (l : list A) (i : nat) : result A :=
  match l !! i with
  | Some x => Ok x
  | None => Raise IndexError
  end.

(** [d[key]] on a dict: [KeyError] when the key is absent. *)
Definition getitem (d : dict) (key : string) : result pyval :=
  match d !! key with
  | Some v => Ok v
  | None => Raise (KeyError key)
  end.

(** ** [_compare_helper] *)

Definition _compare_helper (a b : pyval) : result Z :=
  match a, b with
  | VNone, VNone => Ok 0
  | _, _ =>
      g <- py_gt a b ;;
      l <- py_lt a b ;;
      Ok (Z.b2z g - Z.b2z l)
  end.

(** ** [_OrderByHelper] *)

Module _OrderByHelper.

Definition getTypeOrd (orderby_item : dict) : result Z :=
  match orderby_item !! "item" with
  | None => Ok 0
  | Some val =>
      match val with
      | VNone => Ok 1
      | VBool _ => Ok 2
      | VNum _ => Ok 4
      | VStr _ => Ok 5
      | _ => Raise (TypeError (unknown_type val))
      end
  end.

Definition getTypeStr (orderby_item : dict) : result string :=
  match orderby_item !! "item" with
  | None => Ok "NoValue"
  | Some val =>
      match val with
      | VNone => Ok "Null"
      | VBool _ => Ok "Boolean"
      | VNum _ => Ok "Number"
      | VStr _ => Ok "String"
      | _ => Raise (TypeError (unknown_type val))
      end
  end%string.

Definition compare (orderby_item1 orderby_item2 : dict) : result Z :=
  type1_ord <- getTypeOrd orderby_item1 ;;
  type2_ord <- getTypeOrd orderby_item2 ;;
  let type_ord_diff := type1_ord - type2_ord in
  if negb (type_ord_diff =? 0) then Ok type_ord_diff
  else if type1_ord =? 0 then Ok 0
  else
    a <- getitem orderby_item1 "item" ;;
    b <- getitem orderby_item2 "item" ;;
    _compare_helper a b.

End _OrderByHelper.

(** ** Result items *)

(** An item of a partition's result page: the projected sort keys and the
    document itself. *)
Record item_result : Type := {
  orderByItems : list dict;
  payload : pyval
}.

Definition _peek_order_by_items (peek_result : item_result) : list dict :=
  orderByItems peek_result.

(** ** [_DocumentProducer]

    The producer of one partition key range.  Its execution context
    ([_DefaultQueryExecutionContext], defined in another module) is a
    parameter: a state [ex_context] and its [__anext__], which returns the
    next item or raises ([StopAsyncIteration] at the end of the partition,
    or whatever the page fetch raised) and leaves a new state. *)

Module _DocumentProducer.
Section Producer.
Context {ex_context : Type}.
Variable ex_anext : ex_context -> result item_result * ex_context.

Record t : Type := {
  _partition_key_target_range : dict;
  _cur_item : option item_result;
  _ex_context : ex_context
}.

Definition __anext__ (self : t) : result item_result * t :=
  match _cur_item self with
  | Some res =>
      (Ok res,
       {| _partition_key_target_range := _partition_key_target_range self;
          _cur_item := None;
          _ex_context := _ex_context self |})
  | None =>
      let '(r, c) := ex_anext (_ex_context self) in
      (r,
       {| _partition_key_target_range := _partition_key_target_range self;
          _cur_item := None;
          _ex_context := c |})
  end.

Definition get_target_range (self : t) : dict :=
  _partition_key_target_range self.

Definition peek (self : t) : result item_result * t :=
  match _cur_item self with
  | None =>
      let '(r, c) := ex_anext (_ex_context self) in
      match r with
      | Ok it =>
          (Ok it,
           {| _partition_key_target_range := _partition_key_target_range self;
              _cur_item := Some it;
              _ex_context := c |})
      | Raise e =>
          (Raise e,
           {| _partition_key_target_range := _partition_key_target_range self;
              _cur_item := None;
              _ex_context := c |})
      end
  | Some it => (Ok it, self)
  end.

End Producer.
Arguments t : clear implicits.
End _DocumentProducer.

(** An execution context instrumented with the number of [__anext__] calls
    made on it. *)
Definition counted {C : Type} (next : C -> result item_result * C)
  : C * nat -> result item_result * (C * nat) :=
  fun '(c, n) => let '(r, c') := next c in (r, (c', S n)).

(** ** [_PartitionKeyRangeDocumentProducerComparator] *)

Module _PartitionKeyRangeDocumentProducerComparator.
Section Comparator.
Context {ex_context : Type}.

Definition compare (doc_producer1 doc_producer2 : _DocumentProducer.t ex_context)
  : result Z :=
  a <- getitem (_DocumentProducer.get_target_range doc_producer1) "minInclusive" ;;
  b <- getitem (_DocumentProducer.get_target_range doc_producer2) "minInclusive" ;;
  _compare_helper a b.

End Comparator.
End _PartitionKeyRangeDocumentProducerComparator.

(** ** [_OrderByDocumentProducerComparator]

    [self] is its one field, [_sort_order]. *)

Module _OrderByDocumentProducerComparator.
Section Comparator.
Context {ex_context : Type}.
Variable ex_anext : ex_context -> result item_result * ex_context.

(** The type check of [_validate_orderby_items], over [zip(res1, res2)]. *)
Fixpoint validate_types (pairs : list (dict * dict)) : result unit :=
  match pairs with
  | [] => Ok tt
  | (elt1, elt2) :: rest =>
      type1 <- _OrderByHelper.getTypeStr elt1 ;;
      type2 <- _OrderByHelper.getTypeStr elt2 ;;
      if negb (String.eqb type1 type2)
      then Raise (ValueError ("Expected " ++ type1 ++ ", but got " ++ type2 ++ "."))
      else validate_types rest
  end%string.

Definition _validate_orderby_items (_sort_order : list string)
    (res1 res2 : list dict) : result unit :=
  if negb (length res1 =? length res2)%nat
  then Raise (ValueError "orderByItems cannot have different size")
  else if negb (length res1 =? length _sort_order)%nat
  then Raise (ValueError "orderByItems cannot have a different size than sort orders.")
  else validate_types (zip res1 res2).

(** The loop of [compare] over [enumerate(zip(res1, res2))], from index
    [i]: [Some res] when the loop returns [res], [None] when it runs to
    its end. *)
Fixpoint compare_loop (_sort_order : list string) (i : nat)
    (pairs : list (dict * dict)) : result (option Z) :=
  match pairs with
  | [] => Ok None
  | (elt1, elt2) :: rest =>
      res <- _OrderByHelper.compare elt1 elt2 ;;
      if negb (res =? 0) then
        order <- index _sort_order i ;;
        if String.eqb order "Ascending" then Ok (Some res)
        else if String.eqb order "Descending" then Ok (Some (- res))
        else compare_loop _sort_order (S i) rest
      else compare_loop _sort_order (S i) rest
  end.

Definition compare (_sort_order : list string)
    (doc_producer1 doc_producer2 : _DocumentProducer.t ex_context)
  : result Z * (_DocumentProducer.t ex_context * _DocumentProducer.t ex_context) :=
  let '(r1, doc_producer1) := _DocumentProducer.peek ex_anext doc_producer1 in
  match r1 with
  | Raise e => (Raise e, (doc_producer1, doc_producer2))
  | Ok peek1 =>
      let res1 := _peek_order_by_items peek1 in
      let '(r2, doc_producer2) := _DocumentProducer.peek ex_anext doc_producer2 in
      match r2 with
      | Raise e => (Raise e, (doc_producer1, doc_producer2))
      | Ok peek2 =>
          let res2 := _peek_order_by_items peek2 in
          (_ <- _validate_orderby_items _sort_order res1 res2 ;;
           decided <- compare_loop _sort_order 0 (zip res1 res2) ;;
           match decided with
           | Some res => Ok res
           | None =>
               _PartitionKeyRangeDocumentProducerComparator.compare
                 doc_producer1 doc_producer2
           end,
           (doc_producer1, doc_producer2))
      end
  end.

End Comparator.
End _OrderByDocumentProducerComparator.

(** ** [_NonStreamingItemResultProducer] and [_NonStreamingOrderByComparator] *)

Record _NonStreamingItemResultProducer : Type := {
  _item_result : item_result;
  _doc_producer_comp : list string
    (* a [_NonStreamingOrderByComparator(sort_order)], given by its [sort_order] *)
}.

Module _NonStreamingOrderByComparator.

Definition compare (_sort_order : list string)
    (doc_producer1 doc_producer2 : _NonStreamingItemResultProducer) : result Z :=
  rank1 <- index (orderByItems (_item_result doc_producer1)) 0 ;;
  rank2 <- index (orderByItems (_item_result doc_producer2)) 0 ;;
  res <- _OrderByHelper.compare rank1 rank2 ;;
  if negb (res =? 0) then
    order <- index _sort_order 0 ;;
    if String.eqb order "Descending" then Ok (- res) else Ok res
  else Ok res.

End _NonStreamingOrderByComparator.

(** ** Execution contexts used to run producers *)

(** Modelled from the spec: the execution context of a producer
    ([_DefaultQueryExecutionContext], whose source is not among the sources
    embedded here).  Section 4.1 and 6: the page fetcher returns the partition's
    items page by page, [advance] fetches "until it yields at least one
    item or signals exhaustion".  The state is the list of pages still to
    come; an empty page is skipped. *)
Fixpoint paged_anext (pages : list (list item_result))
  : result item_result * list (list item_result) :=
  match pages with
  | [] => (Raise StopAsyncIteration, [])
  | [] :: rest => paged_anext rest
  | (x :: page) :: rest => (Ok x, page :: rest)
  end.

(** An order-by item [{"item": v}], and one without the "item" key. *)
Definition key_of (v : pyval) : dict := {[ "item"%string := v ]}.
Definition key_undefined : dict := ∅.

(** An item with the given sort keys and an empty document. *)
Definition item_of (keys : list dict) : item_result :=
  {| orderByItems := keys; payload := VObject ∅ |}.

(** A partition key range with the given lower bound. *)
Definition range_of (min_inclusive : pyval) : dict :=
  {[ "minInclusive"%string := min_inclusive ]}.

(** A producer that has not started, over the given pages. *)
Definition fresh_producer (range : dict) (pages : list (list item_result))
  : _DocumentProducer.t (list (list item_result)) :=
  {| _DocumentProducer._partition_key_target_range := range;
     _DocumentProducer._cur_item := None;
     _DocumentProducer._ex_context := pages |}.

Definition sign_of (c : comparison) : Z :=
  match c with Lt => -1 | Eq => 0 | Gt => 1 end.

(** ** The merge coordinator *)

(** Modelled from the spec: the coordinator that merges the producers
    (section 4.4), whose source module is not among the sources embedded
    here.  It is given the configured comparator, which returns the
    comparison and the two producers as the comparison left them. *)
Module MergeCoordinator.
Section Coordinator.
Context {ex_context : Type}.
Variable ex_anext : ex_context -> result item_result * ex_context.
Variable compare :
  _DocumentProducer.t ex_context -> _DocumentProducer.t ex_context ->
  result Z * (_DocumentProducer.t ex_context * _DocumentProducer.t ex_context).

(** Modelled from the spec: step 1 of section 4.4.  Peek every producer;
    one that reports the end of its sequence never enters the live set; any
    other failure aborts the merge. *)
Fixpoint peek_all (producers : list (_DocumentProducer.t ex_context))
  : result (list (_DocumentProducer.t ex_context)) :=
  match producers with
  | [] => Ok []
  | p :: rest =>
      let '(r, p') := _DocumentProducer.peek ex_anext p in
      match r with
      | Ok _ => live <- peek_all rest ;; Ok (p' :: live)
      | Raise StopAsyncIteration => peek_all rest
      | Raise e => Raise e
      end
  end.

(** Modelled from the spec: steps 2 and 4 of section 4.4.  The minimal
    producer under the comparator, by a linear scan that keeps the best producer seen so far, and the other live
    producers. *)
Fixpoint select_min (best : _DocumentProducer.t ex_context)
    (rest : list (_DocumentProducer.t ex_context))
  : result (_DocumentProducer.t ex_context * list (_DocumentProducer.t ex_context)) :=
  match rest with
  | [] => Ok (best, [])
  | p :: rest' =>
      let '(r, (p', best')) := compare p best in
      c <- r ;;
      if c <? 0
      then found <- select_min p' rest' ;;
           let '(m, others) := found in Ok (m, best' :: others)
      else found <- select_min best' rest' ;;
           let '(m, others) := found in Ok (m, p' :: others)
  end.

(** Modelled from the spec: steps 3 and 5 of section 4.4, one pull.
    [None] when the live set is empty (Done); otherwise the item of the
    minimal producer and the live set after that producer was advanced and
    peeked again. *)
Definition pull (live : list (_DocumentProducer.t ex_context))
  : result (option (item_result * list (_DocumentProducer.t ex_context))) :=
  match live with
  | [] => Ok None
  | p :: rest =>
      found <- select_min p rest ;;
      let '(m, others) := found in
      let '(r, m1) := _DocumentProducer.__anext__ ex_anext m in
      item <- r ;;
      let '(r2, m2) := _DocumentProducer.peek ex_anext m1 in
      match r2 with
      | Ok _ => Ok (Some (item, m2 :: others))
      | Raise StopAsyncIteration => Ok (Some (item, others))
      | Raise e => Raise e
      end
  end.

(** Modelled from the spec: the consumer of the merged sequence, which
    pulls until Done; [None] when [fuel] pulls did not reach Done. *)
Fixpoint drain (fuel : nat) (live : list (_DocumentProducer.t ex_context))
  : option (result (list item_result)) :=
  match fuel with
  | O => None
  | S fuel' =>
      match pull live with
      | Raise e => Some (Raise e)
      | Ok None => Some (Ok [])
      | Ok (Some (item, live')) =>
          match drain fuel' live' with
          | Some (Ok items) => Some (Ok (item :: items))
          | other => other
          end
      end
  end.

(** Modelled from the spec: the whole merge, from producers that have not
    started. *)
Definition merge (fuel : nat) (producers : list (_DocumentProducer.t ex_context))
  : option (result (list item_result)) :=
  match peek_all producers with
  | Ok live => drain fuel live
  | Raise e => Some (Raise e)
  end.

End Coordinator.
End MergeCoordinator.

(** The items of a paged partition, in order. *)
Definition items_of (pages : list (list item_result)) : list item_result :=
  concat pages.

(** Modelled from the spec: the merge of paged partitions under the
    order-by comparator; one pull per item and a last one that finds the
    live set empty. *)
Definition merge_paged (sort_order : list string)
    (parts : list (dict * list (list item_result)))
  : option (result (list item_result)) :=
  MergeCoordinator.merge paged_anext
    (_OrderByDocumentProducerComparator.compare paged_anext sort_order)
    (S (length (concat (map (fun part => items_of (snd part)) parts))))
    (map (fun part => fresh_producer (fst part) (snd part)) parts).

(** The single numeric sort key of an item, when it has exactly that. *)
Definition num_key (it : item_result) : option Q :=
  match orderByItems it with
  | [k] => match k !! "item"%string with
           | Some (VNum q) => Some q
           | _ => None
           end
  | _ => None
  end.

Definition key_le (x y : item_result) : Prop :=
  match num_key x, num_key y with
  | Some a, Some b => (a <= b)%Q
  | _, _ => False
  end.

(** ** Vocabulary of the properties *)

Local Open Scope string_scope.

(** The ordinal that [getTypeOrd] gives to the keys of a type string. *)
Definition ord_of_type_str (t : string) : Z :=
  if String.eqb t "NoValue" then 0
  else if String.eqb t "Null" then 1
  else if String.eqb t "Boolean" then 2
  else if String.eqb t "Number" then 4
  else 5.

(** The keys that have a type: the tagged union of the five key types. *)
Inductive kval : Type :=
| KUndefined | KNull | KBool (b : bool) | KNum (q : Q) | KStr (s : string).

Definition classify (k : dict) : option kval :=
  match k !! "item" with
  | None => Some KUndefined
  | Some VNone => Some KNull
  | Some (VBool b) => Some (KBool b)
  | Some (VNum q) => Some (KNum q)
  | Some (VStr s) => Some (KStr s)
  | Some _ => None
  end.

(** The type ordinal and the single-key comparison, on tagged keys; that
    [_OrderByHelper.compare] computes [kcmp] is [helper_compare_classify]. *)
Definition krank (a : kval) : Z :=
  match a with
  | KUndefined => 0 | KNull => 1 | KBool _ => 2 | KNum _ => 4 | KStr _ => 5
  end.

Definition kcmp (a b : kval) : Z :=
  match a, b with
  | KUndefined, KUndefined | KNull, KNull => 0
  | KBool x, KBool y => Z.b2z x - Z.b2z y
  | KNum p, KNum q => sign_of (Qcompare p q)
  | KStr s, KStr t => sign_of (String.compare s t)
  | _, _ => krank a - krank b
  end.

(** Three comparison results [x] of [(a, b)], [y] of [(b, c)] and [z] of
    [(a, c)] that fit one total preorder, on the side of [<=]. *)
Definition ordered3 (x y z : Z) : Prop :=
  x <= 0 -> y <= 0 -> z <= 0 /\ (z = 0 -> x = 0 /\ y = 0).

(** The result of the comparison loop as a number: 0 when it ran to its
    end. *)
Definition lval (r : option Z) : Z := match r with Some x => x | None => 0 end.

Definition not_list (v : pyval) : Prop :=
  match v with VArray _ => False | _ => True end.

(** Validation, as a relation between the two lists. *)
Definition same_type (k1 k2 : dict) : Prop :=
  exists t, _OrderByHelper.getTypeStr k1 = Ok t /\ _OrderByHelper.getTypeStr k2 = Ok t.

Definition bound_not_list {C : Type} (p : _DocumentProducer.t C) : Prop :=
  forall v, _DocumentProducer.get_target_range p !! "minInclusive" = Some v ->
            not_list v.

Arguments items_of : simpl never.

(** A producer over paged partitions. *)
Abbreviation paged_producer := (_DocumentProducer.t (list (list item_result))).

(** What a producer has still to give: its buffer, then its pages. *)
Definition remaining (p : paged_producer) : list item_result :=
  match _DocumentProducer._cur_item p with
  | Some x => x :: items_of (_DocumentProducer._ex_context p)
  | None => items_of (_DocumentProducer._ex_context p)
  end.

(** An item with a single numeric sort key. *)
Definition numeric (it : item_result) : Prop := is_Some (num_key it).

(** A producer whose range has a string lower bound. *)
Definition string_bound (p : paged_producer) : Prop :=
  exists s, _DocumentProducer.get_target_range p !! "minInclusive" = Some (VStr s).

(** A live producer of a merge on a single ascending numeric key. *)
Definition live_ok (p : paged_producer) : Prop :=
  is_Some (_DocumentProducer._cur_item p) /\
  string_bound p /\
  Forall numeric (remaining p) /\
  StronglySorted key_le (remaining p).

(** What the live producers have still to give. *)
Definition all_remaining (live : list paged_producer) : list item_result :=
  concat (map remaining live).

(** The sort key of the peeked item. *)
Definition head_key (p : paged_producer) : option Q :=
  match _DocumentProducer._cur_item p with
  | Some x => num_key x
  | None => None
  end.

Definition head_le (p1 p2 : paged_producer) : Prop :=
  match head_key p1, head_key p2 with
  | Some a, Some b => (a <= b)%Q
  | _, _ => False
  end.

(** A partition of a merge on a single ascending numeric key. *)
Definition sorted_partition (part : dict * list (list item_result)) : Prop :=
  (exists s, fst part !! "minInclusive" = Some (VStr s)) /\
  Forall numeric (items_of (snd part)) /\
  StronglySorted key_le (items_of (snd part)).

(** The two operations of a producer, and a run of them that keeps the
    producer each one leaves. *)
Inductive producer_op : Type := OpPeek | OpAdvance.

Definition step_op {C : Type} (next : C -> result item_result * C)
    (op : producer_op) (p : _DocumentProducer.t C) : _DocumentProducer.t C :=
  match op with
  | OpPeek => snd (_DocumentProducer.peek next p)
  | OpAdvance => snd (_DocumentProducer.__anext__ next p)
  end.

Definition run_ops {C : Type} (next : C -> result item_result * C)
    (ops : list producer_op) (p : _DocumentProducer.t C) : _DocumentProducer.t C :=
  fold_left (fun q op => step_op next op q) ops p.

(** The opposite direction; any other string is left as it is. *)
Definition flip_direction (d : string) : string :=
  if String.eqb d "Ascending" then "Descending"
  else if String.eqb d "Descending" then "Ascending"
  else d.


(** * Properties *)

(** ** Comparison of values of one type *)

Lemma cmp3_str (s t : string) :
  Z.b2z (str_ltb t s) - Z.b2z (str_ltb s t) = sign_of (String.compare s t).
Proof.
  unfold str_ltb. rewrite (String.compare_antisym s t).
  destruct (String.compare t s); reflexivity.
Qed.

Lemma cmp3_Q (p q : Q) :
  Z.b2z (Qltb q p) - Z.b2z (Qltb p q) = sign_of (Qcompare p q).
Proof.
  unfold Qltb. rewrite <- (Qcompare_antisym q p).
  destruct (Qcompare q p); reflexivity.
Qed.

Lemma compare_helper_str (s t : string) :
  _compare_helper (VStr s) (VStr t) = Ok (sign_of (String.compare s t)).
Proof. cbn. f_equal. apply cmp3_str. Qed.

Lemma compare_helper_num (p q : Q) :
  _compare_helper (VNum p) (VNum q) = Ok (sign_of (Qcompare p q)).
Proof. cbn. f_equal. apply cmp3_Q. Qed.

Lemma compare_helper_bool (a b : bool) :
  _compare_helper (VBool a) (VBool b) = Ok (Z.b2z a - Z.b2z b).
Proof. destruct a, b; reflexivity. Qed.

Lemma compare_helper_none_left (b : pyval) :
  b <> VNone ->
  _compare_helper VNone b = Raise (TypeError (not_supported ">" VNone b)).
Proof. destruct b; intros H; try reflexivity. congruence. Qed.

Lemma compare_helper_none_right (a : pyval) :
  a <> VNone ->
  _compare_helper a VNone = Raise (TypeError (not_supported ">" a VNone)).
Proof. destruct a; intros H; try reflexivity. congruence. Qed.

(** ** The producer's buffer *)

Section ProducerFacts.
Context {C : Type} (next : C -> result item_result * C).
Implicit Types p : _DocumentProducer.t C.

Lemma peek_buffered p it :
  _DocumentProducer._cur_item p = Some it ->
  _DocumentProducer.peek next p = (Ok it, p).
Proof. intros H. unfold _DocumentProducer.peek. rewrite H. reflexivity. Qed.

Lemma peek_ok p it p' :
  _DocumentProducer.peek next p = (Ok it, p') ->
  _DocumentProducer._cur_item p' = Some it /\
  _DocumentProducer.get_target_range p' = _DocumentProducer.get_target_range p.
Proof.
  unfold _DocumentProducer.peek.
  destruct (_DocumentProducer._cur_item p) as [b|] eqn:Hb.
  - intros [= <- <-]. auto.
  - destruct (next _) as [[x|e] c]; intros [= <- <-]; auto.
Qed.

Lemma peek_again p it p' :
  _DocumentProducer.peek next p = (Ok it, p') ->
  _DocumentProducer.peek next p' = (Ok it, p').
Proof. intros H. apply peek_buffered. apply (peek_ok _ _ _ H). Qed.

Lemma range_compare_after_peek p1 p2 it1 it2 p1' p2' :
  _DocumentProducer.peek next p1 = (Ok it1, p1') ->
  _DocumentProducer.peek next p2 = (Ok it2, p2') ->
  _PartitionKeyRangeDocumentProducerComparator.compare p1' p2' =
  _PartitionKeyRangeDocumentProducerComparator.compare p1 p2.
Proof.
  intros H1 H2. unfold _PartitionKeyRangeDocumentProducerComparator.compare.
  destruct (peek_ok _ _ _ H1) as [_ ->]. destruct (peek_ok _ _ _ H2) as [_ ->].
  reflexivity.
Qed.

(** [compare] once both peeks have returned. *)
Lemma orderby_compare_peeked sort_order p1 p2 it1 it2 p1' p2' :
  _DocumentProducer.peek next p1 = (Ok it1, p1') ->
  _DocumentProducer.peek next p2 = (Ok it2, p2') ->
  _OrderByDocumentProducerComparator.compare next sort_order p1 p2 =
  (_ <- _OrderByDocumentProducerComparator._validate_orderby_items
          sort_order (orderByItems it1) (orderByItems it2) ;;
   decided <- _OrderByDocumentProducerComparator.compare_loop
                sort_order 0 (zip (orderByItems it1) (orderByItems it2)) ;;
   match decided with
   | Some res => Ok res
   | None => _PartitionKeyRangeDocumentProducerComparator.compare p1 p2
   end, (p1', p2')).
Proof.
  intros H1 H2. unfold _OrderByDocumentProducerComparator.compare.
  rewrite H1, H2. unfold _peek_order_by_items.
  rewrite (range_compare_after_peek _ _ _ _ _ _ H1 H2). reflexivity.
Qed.

End ProducerFacts.

(** ** Type ordinals and type strings *)

Lemma getTypeOrd_of_str (k : dict) (t : string) :
  _OrderByHelper.getTypeStr k = Ok t ->
  _OrderByHelper.getTypeOrd k = Ok (ord_of_type_str t) /\
  In t ["NoValue"; "Null"; "Boolean"; "Number"; "String"].
Proof.
  unfold _OrderByHelper.getTypeStr, _OrderByHelper.getTypeOrd.
  destruct (k !! "item") as [[ | | | | | ]|]; intros [= <-]; cbn; intuition.
Qed.

Lemma getTypeStr_of_ord (k : dict) (r : Z) :
  _OrderByHelper.getTypeOrd k = Ok r ->
  exists t, _OrderByHelper.getTypeStr k = Ok t /\ r = ord_of_type_str t.
Proof.
  unfold _OrderByHelper.getTypeStr, _OrderByHelper.getTypeOrd.
  destruct (k !! "item") as [[ | | | | | ]|]; intros [= <-]; eauto.
Qed.

Lemma ord_of_type_str_inj (t1 t2 : string) :
  In t1 ["NoValue"; "Null"; "Boolean"; "Number"; "String"] ->
  In t2 ["NoValue"; "Null"; "Boolean"; "Number"; "String"] ->
  ord_of_type_str t1 = ord_of_type_str t2 -> t1 = t2.
Proof.
  cbn. intros H1 H2.
  repeat (destruct H1 as [<-|H1]; [|]); try contradiction;
    repeat (destruct H2 as [<-|H2]; [|]); try contradiction;
    cbn; intros H; try reflexivity; discriminate H.
Qed.

(** A single-key comparison that returns was made on two keys with a type
    string; it returns zero only for keys of the same type. *)
Lemma helper_compare_ok (k1 k2 : dict) (x : Z) :
  _OrderByHelper.compare k1 k2 = Ok x ->
  exists t1 t2,
    _OrderByHelper.getTypeStr k1 = Ok t1 /\
    _OrderByHelper.getTypeStr k2 = Ok t2 /\
    (x = 0 -> t1 = t2).
Proof.
  unfold _OrderByHelper.compare.
  destruct (_OrderByHelper.getTypeOrd k1) as [r1|] eqn:H1; [|discriminate].
  destruct (_OrderByHelper.getTypeOrd k2) as [r2|] eqn:H2; [|discriminate].
  cbn. intros H.
  destruct (getTypeStr_of_ord _ _ H1) as (t1 & Ht1 & ->).
  destruct (getTypeStr_of_ord _ _ H2) as (t2 & Ht2 & ->).
  exists t1, t2. repeat split; auto. intros ->.
  destruct (Z.eqb_spec (ord_of_type_str t1 - ord_of_type_str t2) 0) as [E|E].
  - apply ord_of_type_str_inj; [eapply getTypeOrd_of_str; eauto ..| lia].
  - cbn in H. injection H as H. lia.
Qed.

(** ** Values outside the five key types *)

(** C10.  An order-by item whose "item" value is present and is neither
    [None], a boolean, a number nor a string makes both [getTypeOrd] and
    [getTypeStr] raise [TypeError]; a single-key comparison with such an
    item on either side raises [TypeError]; and no item has ordinal 3. *)
Theorem C10_closed_type_universe (orderby_item : dict) (val : pyval) :
  orderby_item !! "item" = Some val ->
  val <> VNone ->
  (forall b, val <> VBool b) ->
  (forall q, val <> VNum q) ->
  (forall s, val <> VStr s) ->
  _OrderByHelper.getTypeOrd orderby_item = Raise (TypeError (unknown_type val)) /\
  _OrderByHelper.getTypeStr orderby_item = Raise (TypeError (unknown_type val)) /\
  (forall other,
      is_TypeError (_OrderByHelper.compare orderby_item other) = true /\
      is_TypeError (_OrderByHelper.compare other orderby_item) = true) /\
  (forall any_item, _OrderByHelper.getTypeOrd any_item <> Ok 3).
Proof.
  intros Hval Hn Hb Hq Hs.
  assert (Ho : _OrderByHelper.getTypeOrd orderby_item
               = Raise (TypeError (unknown_type val))).
  { unfold _OrderByHelper.getTypeOrd. rewrite Hval.
    destruct val; try reflexivity; exfalso;
      solve [ apply Hn; reflexivity | eapply Hb; reflexivity
            | eapply Hq; reflexivity | eapply Hs; reflexivity ]. }
  split; [exact Ho|]. split.
  { unfold _OrderByHelper.getTypeStr. rewrite Hval.
    destruct val; try reflexivity; exfalso;
      solve [ apply Hn; reflexivity | eapply Hb; reflexivity
            | eapply Hq; reflexivity | eapply Hs; reflexivity ]. }
  split.
  - intros other. unfold _OrderByHelper.compare. rewrite Ho. split; [reflexivity|].
    unfold _OrderByHelper.getTypeOrd at 1.
    destruct (other !! "item") as [[ | | | | | ]|]; reflexivity.
  - intros k. unfold _OrderByHelper.getTypeOrd.
    destruct (k !! "item") as [[ | | | | | ]|]; discriminate.
Qed.

Lemma C10_closed_type_universe_witness :
  _OrderByHelper.getTypeOrd (key_of (VArray [VNum 1]))
  = Raise (TypeError (unknown_type (VArray [VNum 1]))) /\
  is_TypeError (_OrderByHelper.compare (key_of (VNum 1)) (key_of (VObject ∅))) = true.
Proof.
  split.
  - apply (C10_closed_type_universe (key_of (VArray [VNum 1])) (VArray [VNum 1]));
      [reflexivity | discriminate ..].
  - apply (C10_closed_type_universe (key_of (VObject ∅)) (VObject ∅));
      [reflexivity | discriminate ..].
Defined.

(** ** The partition-range comparator *)

(** C5 (as amended).  The partition-range comparator returns
    [_compare_helper] of the two [minInclusive] values: 0 for two [None]
    bounds, the lexicographic three-way comparison for two strings; it
    raises [TypeError] when exactly one bound is [None], and [KeyError]
    when a range has no "minInclusive" key. *)
Theorem C5_partition_range_compare {C : Type} (p1 p2 : _DocumentProducer.t C) :
  match _DocumentProducer.get_target_range p1 !! "minInclusive",
        _DocumentProducer.get_target_range p2 !! "minInclusive" with
  | Some a, Some b =>
      _PartitionKeyRangeDocumentProducerComparator.compare p1 p2
      = _compare_helper a b /\
      match a, b with
      | VNone, VNone => _compare_helper a b = Ok 0
      | VNone, _ | _, VNone =>
          _compare_helper a b = Raise (TypeError (not_supported ">" a b))
      | VStr s, VStr t =>
          _compare_helper a b = Ok (sign_of (String.compare s t))
      | _, _ => True
      end
  | _, _ =>
      _PartitionKeyRangeDocumentProducerComparator.compare p1 p2
      = Raise (KeyError "minInclusive")
  end.
Proof.
  unfold _PartitionKeyRangeDocumentProducerComparator.compare, getitem.
  destruct (_ !! "minInclusive") as [a|];
    destruct (_ !! "minInclusive") as [b|]; try reflexivity.
  split; [reflexivity|].
  destruct a, b; try exact I; try reflexivity. apply compare_helper_str.
Qed.

(** C5, as stated, fails: a [None] bound against a present bound does not
    compare lower, the comparison raises. *)
Lemma C5_counterexample :
  let p1 := fresh_producer (range_of VNone) [] in
  let p2 := fresh_producer (range_of (VStr "05C1DFFFFFFFFC")) [] in
  _PartitionKeyRangeDocumentProducerComparator.compare p1 p2
  = Raise (TypeError (not_supported ">" VNone (VStr "05C1DFFFFFFFFC"))) /\
  ~ (exists z, _PartitionKeyRangeDocumentProducerComparator.compare p1 p2 = Ok z
               /\ z < 0).
Proof.
  split; [reflexivity|]. intros [z [H _]]. vm_compute in H. discriminate H.
Qed.

(** ** The order-by comparator: ties *)

Lemma tie_loop (sort_order : list string) (i : nat) (res1 res2 : list dict) :
  Forall2 (fun elt1 elt2 => _OrderByHelper.compare elt1 elt2 = Ok 0) res1 res2 ->
  _OrderByDocumentProducerComparator.validate_types (zip res1 res2) = Ok tt /\
  _OrderByDocumentProducerComparator.compare_loop sort_order i (zip res1 res2)
  = Ok None.
Proof.
  intros H. revert i. induction H as [|elt1 elt2 res1 res2 H0 _ IH]; intros i.
  - split; reflexivity.
  - destruct (helper_compare_ok _ _ _ H0) as (t1 & t2 & Ht1 & Ht2 & Heq).
    specialize (Heq eq_refl). subst t2. cbn.
    rewrite Ht1, Ht2, H0. cbn. rewrite String.eqb_refl. cbn.
    destruct (IH (S i)) as [IH1 IH2]. split; assumption.
Qed.

(** C3.  When the two peeked key lists compare equal at every position
    (and there is one sort order per position), the order-by comparator
    returns what the partition-range comparator returns on the two
    producers: the comparison of their [minInclusive] bounds. *)
Theorem C3_tie_break {C : Type} (next : C -> result item_result * C)
    (sort_order : list string) (p1 p2 : _DocumentProducer.t C)
    (it1 it2 : item_result) (p1' p2' : _DocumentProducer.t C) :
  _DocumentProducer.peek next p1 = (Ok it1, p1') ->
  _DocumentProducer.peek next p2 = (Ok it2, p2') ->
  length sort_order = length (orderByItems it1) ->
  Forall2 (fun elt1 elt2 => _OrderByHelper.compare elt1 elt2 = Ok 0)
          (orderByItems it1) (orderByItems it2) ->
  _OrderByDocumentProducerComparator.compare next sort_order p1 p2
  = (_PartitionKeyRangeDocumentProducerComparator.compare p1 p2, (p1', p2')) /\
  _PartitionKeyRangeDocumentProducerComparator.compare p1 p2
  = (a <- getitem (_DocumentProducer.get_target_range p1) "minInclusive" ;;
     b <- getitem (_DocumentProducer.get_target_range p2) "minInclusive" ;;
     _compare_helper a b).
Proof.
  intros H1 H2 Hlen Hall. split; [|reflexivity].
  rewrite (orderby_compare_peeked next sort_order _ _ _ _ _ _ H1 H2).
  unfold _OrderByDocumentProducerComparator._validate_orderby_items.
  pose proof (Forall2_length _ _ _ Hall) as Hl.
  rewrite <- Hl, Hlen, !Nat.eqb_refl. cbn.
  destruct (tie_loop sort_order 0 _ _ Hall) as [-> ->]. reflexivity.
Qed.

Lemma C3_tie_break_witness :
  let it := item_of [key_of (VNum 7); key_of (VStr "x")] in
  let p1 := fresh_producer (range_of (VStr "00")) [[it]] in
  let p2 := fresh_producer (range_of (VStr "AA")) [[it]] in
  fst (_OrderByDocumentProducerComparator.compare paged_anext
         ["Ascending"; "Descending"] p1 p2) = Ok (-1).
Proof.
  intros it p1 p2.
  pose proof (C3_tie_break paged_anext ["Ascending"; "Descending"] p1 p2 it it
                (snd (_DocumentProducer.peek paged_anext p1))
                (snd (_DocumentProducer.peek paged_anext p2))
                eq_refl eq_refl eq_refl) as H.
  destruct H as [-> _].
  - repeat constructor.
  - reflexivity.
Defined.

(** ** Keys of different types *)

(** The ordinals of the five type tags. *)
Lemma type_ranks :
  _OrderByHelper.getTypeOrd key_undefined = Ok 0 /\
  _OrderByHelper.getTypeOrd (key_of VNone) = Ok 1 /\
  (forall b, _OrderByHelper.getTypeOrd (key_of (VBool b)) = Ok 2) /\
  (forall q, _OrderByHelper.getTypeOrd (key_of (VNum q)) = Ok 4) /\
  (forall s, _OrderByHelper.getTypeOrd (key_of (VStr s)) = Ok 5).
Proof. repeat split. Qed.

Lemma helper_compare_ranks (k1 k2 : dict) (r1 r2 : Z) :
  _OrderByHelper.getTypeOrd k1 = Ok r1 ->
  _OrderByHelper.getTypeOrd k2 = Ok r2 ->
  r1 <> r2 ->
  _OrderByHelper.compare k1 k2 = Ok (r1 - r2).
Proof.
  intros H1 H2 Hne. unfold _OrderByHelper.compare. rewrite H1, H2. cbn.
  destruct (Z.eqb_spec (r1 - r2) 0); [lia | reflexivity].
Qed.

(** C1 (as amended).  For two keys whose type ordinals are [r1 < r2]
    (Undefined 0, Null 1, Boolean 2, Number 4, String 5): the single-key
    comparison returns the negative [r1 - r2]; on single-key lists the
    non-streaming comparator returns it under Ascending and its opposite
    under Descending; the order-by comparator of two producers, whatever
    the direction, rejects the pair in its validation with
    "Expected <type1>, but got <type2>.". *)
Theorem C1_cross_type_rank {C : Type} (next : C -> result item_result * C)
    (k1 k2 : dict) (r1 r2 : Z) :
  _OrderByHelper.getTypeOrd k1 = Ok r1 ->
  _OrderByHelper.getTypeOrd k2 = Ok r2 ->
  r1 < r2 ->
  _OrderByHelper.compare k1 k2 = Ok (r1 - r2) /\
  (forall n1 n2,
      orderByItems (_item_result n1) = [k1] ->
      orderByItems (_item_result n2) = [k2] ->
      _NonStreamingOrderByComparator.compare ["Ascending"] n1 n2 = Ok (r1 - r2) /\
      _NonStreamingOrderByComparator.compare ["Descending"] n1 n2
      = Ok (- (r1 - r2))) /\
  (forall direction p1 p2 it1 it2 p1' p2',
      _DocumentProducer.peek next p1 = (Ok it1, p1') ->
      _DocumentProducer.peek next p2 = (Ok it2, p2') ->
      orderByItems it1 = [k1] ->
      orderByItems it2 = [k2] ->
      exists type1 type2,
        _OrderByHelper.getTypeStr k1 = Ok type1 /\
        _OrderByHelper.getTypeStr k2 = Ok type2 /\
        type1 <> type2 /\
        _OrderByDocumentProducerComparator.compare next [direction] p1 p2
        = (Raise (ValueError ("Expected " ++ type1 ++ ", but got " ++ type2 ++ ".")),
           (p1', p2'))).
Proof.
  intros H1 H2 Hlt.
  assert (Hc : _OrderByHelper.compare k1 k2 = Ok (r1 - r2))
    by (apply helper_compare_ranks; auto; lia).
  split; [exact Hc|]. split.
  - intros n1 n2 E1 E2. unfold _NonStreamingOrderByComparator.compare.
    rewrite E1, E2. cbn. rewrite Hc. cbn.
    destruct (Z.eqb_spec (r1 - r2) 0); [lia|]. cbn. split; reflexivity.
  - intros direction p1 p2 it1 it2 p1' p2' P1 P2 E1 E2.
    destruct (getTypeStr_of_ord _ _ H1) as (t1 & Ht1 & ->).
    destruct (getTypeStr_of_ord _ _ H2) as (t2 & Ht2 & ->).
    assert (Hne : t1 <> t2) by (intros ->; lia).
    exists t1, t2. repeat split; auto.
    rewrite (orderby_compare_peeked next _ _ _ _ _ _ _ P1 P2), E1, E2.
    cbn. rewrite Ht1, Ht2. cbn.
    destruct (String.eqb_spec t1 t2); [contradiction | reflexivity].
Qed.

Lemma C1_cross_type_rank_witness :
  _OrderByHelper.compare key_undefined (key_of VNone) = Ok (-1) /\
  _OrderByHelper.compare (key_of VNone) (key_of (VBool true)) = Ok (-1) /\
  _OrderByHelper.compare (key_of (VBool true)) (key_of (VNum 0)) = Ok (-2) /\
  _OrderByHelper.compare (key_of (VNum 1)) (key_of (VStr "a")) = Ok (-1) /\
  _NonStreamingOrderByComparator.compare ["Descending"]
    {| _item_result := item_of [key_undefined]; _doc_producer_comp := ["Descending"] |}
    {| _item_result := item_of [key_of VNone]; _doc_producer_comp := ["Descending"] |}
  = Ok 1.
Proof.
  split; [|split; [|split; [|split]]].
  - apply (C1_cross_type_rank paged_anext key_undefined (key_of VNone) 0 1);
      [reflexivity | reflexivity | lia].
  - apply (C1_cross_type_rank paged_anext (key_of VNone) (key_of (VBool true)) 1 2);
      [reflexivity | reflexivity | lia].
  - apply (C1_cross_type_rank paged_anext (key_of (VBool true)) (key_of (VNum 0)) 2 4);
      [reflexivity | reflexivity | lia].
  - apply (C1_cross_type_rank paged_anext (key_of (VNum 1)) (key_of (VStr "a")) 4 5);
      [reflexivity | reflexivity | lia].
  - destruct (C1_cross_type_rank paged_anext key_undefined (key_of VNone) 0 1
                eq_refl eq_refl ltac:(lia)) as (_ & Hns & _).
    apply (Hns {| _item_result := item_of [key_undefined];
                  _doc_producer_comp := ["Descending"] |}
               {| _item_result := item_of [key_of VNone];
                  _doc_producer_comp := ["Descending"] |} eq_refl eq_refl).
Defined.

(** C1, as stated, fails on the order-by comparator: single-key lists
    [Undefined] and [Null] are not ordered, the comparison raises. *)
Lemma C1_counterexample :
  let p1 := fresh_producer (range_of (VStr "00")) [[item_of [key_undefined]]] in
  let p2 := fresh_producer (range_of (VStr "AA")) [[item_of [key_of VNone]]] in
  fst (_OrderByDocumentProducerComparator.compare paged_anext ["Ascending"] p1 p2)
  = Raise (ValueError "Expected NoValue, but got Null.") /\
  ~ (exists z,
        fst (_OrderByDocumentProducerComparator.compare paged_anext
               ["Ascending"] p1 p2) = Ok z /\ z < 0).
Proof.
  split; [reflexivity|]. intros [z [H _]]. vm_compute in H. discriminate H.
Qed.

(** ** The non-streaming comparator *)

Lemma validate_types_head (k1 k2 : dict) (rest : list (dict * dict)) :
  _OrderByDocumentProducerComparator.validate_types ((k1, k2) :: rest) = Ok tt ->
  exists t, _OrderByHelper.getTypeStr k1 = Ok t /\
            _OrderByHelper.getTypeStr k2 = Ok t /\
            _OrderByDocumentProducerComparator.validate_types rest = Ok tt.
Proof.
  cbn. destruct (_OrderByHelper.getTypeStr k1) as [t1|]; [|discriminate].
  destruct (_OrderByHelper.getTypeStr k2) as [t2|]; [|discriminate]. cbn.
  destruct (String.eqb_spec t1 t2) as [->|]; [|discriminate]. cbn. eauto.
Qed.

Lemma validate_ok (sort_order : list string) (res1 res2 : list dict) :
  _OrderByDocumentProducerComparator._validate_orderby_items sort_order res1 res2
  = Ok tt ->
  length res1 = length res2 /\ length res1 = length sort_order /\
  _OrderByDocumentProducerComparator.validate_types (zip res1 res2) = Ok tt.
Proof.
  unfold _OrderByDocumentProducerComparator._validate_orderby_items.
  destruct (Nat.eqb_spec (length res1) (length res2)); [|discriminate].
  destruct (Nat.eqb_spec (length res1) (length sort_order)); [|discriminate].
  cbn. auto.
Qed.

(** C4 (as amended).  The non-streaming comparator compares the first sort
    key only: it returns the single-key comparison of the two first keys,
    negated when that is non-zero and the first sort order is "Descending".
    It agrees with the order-by comparator on the items that comparator
    accepts when their first keys differ and the first sort order is
    "Ascending" or "Descending". *)
Theorem C4_top_k_comparator {C : Type} (next : C -> result item_result * C)
    (sort_order : list string) (n1 n2 : _NonStreamingItemResultProducer)
    (k1 k2 : dict) (rest1 rest2 : list dict) (res : Z) :
  orderByItems (_item_result n1) = k1 :: rest1 ->
  orderByItems (_item_result n2) = k2 :: rest2 ->
  _OrderByHelper.compare k1 k2 = Ok res ->
  _NonStreamingOrderByComparator.compare sort_order n1 n2
  = (if (res =? 0)%Z then Ok 0
     else order <- index sort_order 0 ;;
          Ok (if String.eqb order "Descending" then - res else res)) /\
  (forall p1 p2 p1' p2',
      _DocumentProducer.peek next p1 = (Ok (_item_result n1), p1') ->
      _DocumentProducer.peek next p2 = (Ok (_item_result n2), p2') ->
      _OrderByDocumentProducerComparator._validate_orderby_items
        sort_order (k1 :: rest1) (k2 :: rest2) = Ok tt ->
      res <> 0 ->
      sort_order !! 0%nat = Some "Ascending" \/
      sort_order !! 0%nat = Some "Descending" ->
      _OrderByDocumentProducerComparator.compare next sort_order p1 p2
      = (_NonStreamingOrderByComparator.compare sort_order n1 n2, (p1', p2'))).
Proof.
  intros E1 E2 Hc.
  assert (Hns : _NonStreamingOrderByComparator.compare sort_order n1 n2
          = (if (res =? 0)%Z then Ok 0
             else order <- index sort_order 0 ;;
                  Ok (if String.eqb order "Descending" then - res else res))).
  { unfold _NonStreamingOrderByComparator.compare. rewrite E1, E2. cbn.
    rewrite Hc. cbn. destruct (Z.eqb_spec res 0) as [->|]; cbn; [reflexivity|].
    destruct (index sort_order 0) as [order|]; cbn; [|reflexivity].
    destruct (String.eqb order "Descending"); reflexivity. }
  split; [exact Hns|].
  intros p1 p2 p1' p2' P1 P2 Hv Hne Hdir.
  rewrite (orderby_compare_peeked next _ _ _ _ _ _ _ P1 P2), E1, E2, Hv, Hns.
  cbn. rewrite Hc. cbn. unfold index.
  destruct (Z.eqb_spec res 0); [contradiction|]. cbn.
  destruct Hdir as [-> | ->]; reflexivity.
Qed.

Lemma C4_top_k_comparator_witness :
  let n1 := {| _item_result := item_of [key_of (VNum 3)];
               _doc_producer_comp := ["Descending"] |} in
  let n2 := {| _item_result := item_of [key_of (VNum 5)];
               _doc_producer_comp := ["Descending"] |} in
  _NonStreamingOrderByComparator.compare ["Descending"] n1 n2 = Ok 1 /\
  fst (_OrderByDocumentProducerComparator.compare paged_anext ["Descending"]
         (fresh_producer (range_of (VStr "00")) [[_item_result n1]])
         (fresh_producer (range_of (VStr "AA")) [[_item_result n2]])) = Ok 1.
Proof.
  intros n1 n2.
  destruct (C4_top_k_comparator paged_anext ["Descending"] n1 n2
              (key_of (VNum 3)) (key_of (VNum 5)) [] [] (-1)
              eq_refl eq_refl eq_refl) as [Hns Hob].
  split; [exact Hns|].
  rewrite (Hob (fresh_producer (range_of (VStr "00")) [[_item_result n1]])
               (fresh_producer (range_of (VStr "AA")) [[_item_result n2]])
               _ _ eq_refl eq_refl eq_refl); [exact Hns | lia | right; reflexivity].
Defined.

(** C4, as stated, fails: on two-key items that tie on the first key the
    non-streaming comparator returns 0 where the order-by comparator
    decides on the second key. *)
Lemma C4_counterexample :
  let it1 := item_of [key_of (VNum 1); key_of (VNum 2)] in
  let it2 := item_of [key_of (VNum 1); key_of (VNum 1)] in
  let order := ["Ascending"; "Ascending"] in
  _NonStreamingOrderByComparator.compare order
    {| _item_result := it1; _doc_producer_comp := order |}
    {| _item_result := it2; _doc_producer_comp := order |} = Ok 0 /\
  fst (_OrderByDocumentProducerComparator.compare paged_anext order
         (fresh_producer (range_of (VStr "00")) [[it1]])
         (fresh_producer (range_of (VStr "AA")) [[it2]])) = Ok 1.
Proof. split; reflexivity. Qed.

(** ** Validation *)

(** The type check raises at the first position where a key has no type
    string or the two type strings differ. *)
Lemma validate_types_mismatch (res1 res2 : list dict) (i : nat)
    (elt1 elt2 : dict) (type1 type2 : string) :
  res1 !! i = Some elt1 ->
  res2 !! i = Some elt2 ->
  _OrderByHelper.getTypeStr elt1 = Ok type1 ->
  _OrderByHelper.getTypeStr elt2 = Ok type2 ->
  type1 <> type2 ->
  exists e,
    _OrderByDocumentProducerComparator.validate_types (zip res1 res2) = Raise e /\
    ((exists val, e = TypeError (unknown_type val)) \/
     (exists j a b ta tb,
         (j <= i)%nat /\ res1 !! j = Some a /\ res2 !! j = Some b /\
         _OrderByHelper.getTypeStr a = Ok ta /\
         _OrderByHelper.getTypeStr b = Ok tb /\ ta <> tb /\
         e = ValueError ("Expected " ++ ta ++ ", but got " ++ tb ++ "."))) /\
    (Forall (fun k => is_ok (_OrderByHelper.getTypeStr k) = true) (res1 ++ res2) ->
     is_ValueError (@Raise unit e) = true).
Proof.
  revert res2 i. induction res1 as [|a res1 IH]; intros [|b res2] i;
    try discriminate.
  intros L1 L2 T1 T2 Hne. cbn [zip_with _OrderByDocumentProducerComparator.validate_types].
  destruct (_OrderByHelper.getTypeStr a) as [ta|ea] eqn:Ha.
  2:{ cbn. exists ea. split; [reflexivity|]. split.
      - left. revert Ha. unfold _OrderByHelper.getTypeStr.
        destruct (a !! "item") as [[ | | | | | ]|]; intros [= <-]; eauto.
      - intros HF. inversion HF as [|? ? Hok _]; subst.
        rewrite Ha in Hok. discriminate Hok. }
  destruct (_OrderByHelper.getTypeStr b) as [tb|eb] eqn:Hb.
  2:{ cbn. exists eb. split; [reflexivity|]. split.
      - left. revert Hb. unfold _OrderByHelper.getTypeStr.
        destruct (b !! "item") as [[ | | | | | ]|]; intros [= <-]; eauto.
      - intros HF. apply (proj1 (Forall_app _ (a :: res1) (b :: res2))) in HF.
        destruct HF as [_ HF].
        inversion HF as [|? ? Hok _]; subst.
        rewrite Hb in Hok. discriminate Hok. }
  cbn. destruct (String.eqb_spec ta tb) as [->|Hab]; cbn.
  - destruct i as [|i].
    + cbn in L1, L2. injection L1 as <-. injection L2 as <-.
      rewrite Ha in T1. rewrite Hb in T2. congruence.
    + cbn in L1, L2.
      destruct (IH res2 i L1 L2 T1 T2 Hne) as (e & He & Hwhich & Hval).
      exists e. split; [exact He|]. split.
      * destruct Hwhich as [Hw | (j & a' & b' & ta' & tb' & Hj & Hw)]; [left; exact Hw|].
        right. exists (S j), a', b', ta', tb'. split; [lia | exact Hw].
      * intros HF. apply Hval.
        apply (proj1 (Forall_app _ (a :: res1) (b :: res2))) in HF.
        destruct HF as [F1 F2].
        apply Forall_app. split; [inversion F1 | inversion F2]; assumption.
  - eexists. split; [reflexivity|]. split; [|reflexivity].
    right. exists 0%nat, a, b, ta, tb. repeat split; auto. lia.
Qed.

(** C6.  When the two peeked key lists differ in length, or their length
    differs from the number of sort orders, or some position has two
    different type strings, the order-by comparator returns no result: it
    raises the error of [_validate_orderby_items], and both peeked items
    stay in their producers' buffers.  The error is the [ValueError] of the
    first failing check; for a type mismatch its message names the expected
    and the observed type (a key with no type string at all raises the
    [TypeError] of [getTypeStr] instead). *)
Theorem C6_validation_failure {C : Type} (next : C -> result item_result * C)
    (sort_order : list string) (p1 p2 : _DocumentProducer.t C)
    (it1 it2 : item_result) (p1' p2' : _DocumentProducer.t C) :
  _DocumentProducer.peek next p1 = (Ok it1, p1') ->
  _DocumentProducer.peek next p2 = (Ok it2, p2') ->
  length (orderByItems it1) <> length (orderByItems it2) \/
  length (orderByItems it1) <> length sort_order \/
  (exists i elt1 elt2 type1 type2,
      orderByItems it1 !! i = Some elt1 /\ orderByItems it2 !! i = Some elt2 /\
      _OrderByHelper.getTypeStr elt1 = Ok type1 /\
      _OrderByHelper.getTypeStr elt2 = Ok type2 /\ type1 <> type2) ->
  exists e,
    _OrderByDocumentProducerComparator._validate_orderby_items
      sort_order (orderByItems it1) (orderByItems it2) = Raise e /\
    _OrderByDocumentProducerComparator.compare next sort_order p1 p2
    = (Raise e, (p1', p2')) /\
    _DocumentProducer._cur_item p1' = Some it1 /\
    _DocumentProducer._cur_item p2' = Some it2 /\
    (length (orderByItems it1) <> length (orderByItems it2) ->
     e = ValueError "orderByItems cannot have different size") /\
    (length (orderByItems it1) = length (orderByItems it2) ->
     length (orderByItems it1) <> length sort_order ->
     e = ValueError "orderByItems cannot have a different size than sort orders.") /\
    (length (orderByItems it1) = length (orderByItems it2) ->
     length (orderByItems it1) = length sort_order ->
     (exists val, e = TypeError (unknown_type val)) \/
     (exists j a b ta tb,
         orderByItems it1 !! j = Some a /\ orderByItems it2 !! j = Some b /\
         _OrderByHelper.getTypeStr a = Ok ta /\
         _OrderByHelper.getTypeStr b = Ok tb /\ ta <> tb /\
         e = ValueError ("Expected " ++ ta ++ ", but got " ++ tb ++ "."))) /\
    (Forall (fun k => is_ok (_OrderByHelper.getTypeStr k) = true)
            (orderByItems it1 ++ orderByItems it2) ->
     is_ValueError (@Raise unit e) = true).
Proof.
  intros P1 P2 Hbad.
  set (res1 := orderByItems it1) in *. set (res2 := orderByItems it2) in *.
  assert (Hv : exists e,
    _OrderByDocumentProducerComparator._validate_orderby_items sort_order res1 res2
    = Raise e /\
    (length res1 <> length res2 ->
     e = ValueError "orderByItems cannot have different size") /\
    (length res1 = length res2 -> length res1 <> length sort_order ->
     e = ValueError "orderByItems cannot have a different size than sort orders.") /\
    (length res1 = length res2 -> length res1 = length sort_order ->
     (exists val, e = TypeError (unknown_type val)) \/
     (exists j a b ta tb,
         res1 !! j = Some a /\ res2 !! j = Some b /\
         _OrderByHelper.getTypeStr a = Ok ta /\
         _OrderByHelper.getTypeStr b = Ok tb /\ ta <> tb /\
         e = ValueError ("Expected " ++ ta ++ ", but got " ++ tb ++ "."))) /\
    (Forall (fun k => is_ok (_OrderByHelper.getTypeStr k) = true) (res1 ++ res2) ->
     is_ValueError (@Raise unit e) = true)).
  { unfold _OrderByDocumentProducerComparator._validate_orderby_items.
    destruct (Nat.eqb_spec (length res1) (length res2)) as [E1|E1]; cbn.
    2:{ eexists. split; [reflexivity|]. repeat split; auto; contradiction. }
    destruct (Nat.eqb_spec (length res1) (length sort_order)) as [E2|E2]; cbn.
    2:{ eexists. split; [reflexivity|]. repeat split; auto; contradiction. }
    destruct Hbad as [Hbad | [Hbad | Hbad]]; try contradiction.
    destruct Hbad as (i & elt1 & elt2 & t1 & t2 & L1 & L2 & T1 & T2 & Hne).
    destruct (validate_types_mismatch res1 res2 i elt1 elt2 t1 t2 L1 L2 T1 T2 Hne)
      as (e & He & Hwhich & Hval).
    exists e. split; [exact He|]. repeat split; try contradiction; auto.
    intros _ _. destruct Hwhich as [Hw | (j & a & b & ta & tb & _ & Hw)];
      [left; exact Hw | right; eauto 10]. }
  destruct Hv as (e & He & Hrest). exists e. split; [exact He|]. split.
  { rewrite (orderby_compare_peeked next _ _ _ _ _ _ _ P1 P2).
    fold res1 res2. rewrite He. reflexivity. }
  split; [apply (peek_ok next _ _ _ P1)|].
  split; [apply (peek_ok next _ _ _ P2)|]. exact Hrest.
Qed.

Lemma C6_validation_failure_witness :
  let it1 := item_of [key_of (VNum 1); key_of (VStr "a")] in
  let it2 := item_of [key_of (VNum 2)] in
  let p1 := fresh_producer (range_of (VStr "00")) [[it1]] in
  let p2 := fresh_producer (range_of (VStr "AA")) [[it2]] in
  fst (_OrderByDocumentProducerComparator.compare paged_anext
         ["Ascending"; "Ascending"] p1 p2)
  = Raise (ValueError "orderByItems cannot have different size").
Proof.
  intros it1 it2 p1 p2.
  destruct (C6_validation_failure paged_anext ["Ascending"; "Ascending"] p1 p2
              it1 it2 _ _ eq_refl eq_refl)
    as (e & _ & Hc & _ & _ & Hmsg & _).
  - left. cbn. lia.
  - rewrite Hc. cbn. rewrite Hmsg; [reflexivity | cbn; lia].
Defined.

(** ** The first position that differs decides *)

(** The loop from index [i0], ties before position [i], a non-zero
    single-key comparison at position [i]. *)
Lemma loop_decided (sort_order : list string) (res1 res2 : list dict)
    (i0 i : nat) (elt1 elt2 : dict) (cmp : Z) :
  res1 !! i = Some elt1 ->
  res2 !! i = Some elt2 ->
  (forall j a b, (j < i)%nat -> res1 !! j = Some a -> res2 !! j = Some b ->
                 _OrderByHelper.compare a b = Ok 0) ->
  _OrderByHelper.compare elt1 elt2 = Ok cmp ->
  cmp <> 0 ->
  forall direction, sort_order !! (i0 + i)%nat = Some direction ->
  _OrderByDocumentProducerComparator.compare_loop sort_order i0 (zip res1 res2)
  = (if String.eqb direction "Ascending" then Ok (Some cmp)
     else if String.eqb direction "Descending" then Ok (Some (- cmp))
     else _OrderByDocumentProducerComparator.compare_loop sort_order (S (i0 + i))
            (zip (drop (S i) res1) (drop (S i) res2))).
Proof.
  revert res1 res2 i0. induction i as [|i IH]; intros [|a res1] [|b res2] i0;
    try discriminate.
  - intros [= ->] [= ->] _ Hc Hne direction Hd.
    cbn [zip_with _OrderByDocumentProducerComparator.compare_loop].
    rewrite Hc. cbn [bind]. destruct (Z.eqb_spec cmp 0); [contradiction|].
    cbn [negb]. unfold index. rewrite Nat.add_0_r in *. rewrite Hd. reflexivity.
  - intros L1 L2 Hties Hc Hne direction Hd. cbn in L1, L2.
    cbn [zip_with _OrderByDocumentProducerComparator.compare_loop].
    rewrite (Hties 0%nat a b); [|lia|reflexivity|reflexivity]. cbn [bind Z.eqb negb].
    assert (Hd' : sort_order !! (S i0 + i)%nat = Some direction)
      by (replace (S i0 + i)%nat with (i0 + S i)%nat by lia; exact Hd).
    assert (Hties' : forall j a' b', (j < i)%nat ->
              res1 !! j = Some a' -> res2 !! j = Some b' ->
              _OrderByHelper.compare a' b' = Ok 0)
      by (intros j a' b' Hj; apply (Hties (S j)); lia).
    rewrite (IH res1 res2 (S i0) L1 L2 Hties' Hc Hne direction Hd').
    replace (S i0 + i)%nat with (i0 + S i)%nat by lia. reflexivity.
Qed.

(** C2 (as amended).  For two peeked key lists that the validation accepts
    (equal lengths, one sort order per position, the same type string at
    every position), if position [i] is the first whose single-key
    comparison [cmp] is non-zero, the order-by comparator returns [cmp] when
    the sort order at [i] is "Ascending" and [- cmp] when it is
    "Descending"; the comparison loop run on the first [i + 1] positions
    alone returns the same. *)
Theorem C2_first_difference {C : Type} (next : C -> result item_result * C)
    (sort_order : list string) (p1 p2 : _DocumentProducer.t C)
    (it1 it2 : item_result) (p1' p2' : _DocumentProducer.t C)
    (i : nat) (elt1 elt2 : dict) (cmp : Z) :
  _DocumentProducer.peek next p1 = (Ok it1, p1') ->
  _DocumentProducer.peek next p2 = (Ok it2, p2') ->
  _OrderByDocumentProducerComparator._validate_orderby_items
    sort_order (orderByItems it1) (orderByItems it2) = Ok tt ->
  orderByItems it1 !! i = Some elt1 ->
  orderByItems it2 !! i = Some elt2 ->
  (forall j a b, (j < i)%nat ->
                 orderByItems it1 !! j = Some a -> orderByItems it2 !! j = Some b ->
                 _OrderByHelper.compare a b = Ok 0) ->
  _OrderByHelper.compare elt1 elt2 = Ok cmp ->
  cmp <> 0 ->
  (sort_order !! i = Some "Ascending" ->
   _OrderByDocumentProducerComparator.compare next sort_order p1 p2
   = (Ok cmp, (p1', p2')) /\
   _OrderByDocumentProducerComparator.compare_loop sort_order 0
     (zip (take (S i) (orderByItems it1)) (take (S i) (orderByItems it2)))
   = Ok (Some cmp)) /\
  (sort_order !! i = Some "Descending" ->
   _OrderByDocumentProducerComparator.compare next sort_order p1 p2
   = (Ok (- cmp), (p1', p2')) /\
   _OrderByDocumentProducerComparator.compare_loop sort_order 0
     (zip (take (S i) (orderByItems it1)) (take (S i) (orderByItems it2)))
   = Ok (Some (- cmp))).
Proof.
  intros P1 P2 Hv L1 L2 Hties Hc Hne.
  assert (Htake : forall direction, sort_order !! i = Some direction ->
    _OrderByDocumentProducerComparator.compare_loop sort_order 0
      (zip (take (S i) (orderByItems it1)) (take (S i) (orderByItems it2)))
    = (if String.eqb direction "Ascending" then Ok (Some cmp)
       else if String.eqb direction "Descending" then Ok (Some (- cmp))
       else _OrderByDocumentProducerComparator.compare_loop sort_order (S i)
              (zip (drop (S i) (take (S i) (orderByItems it1)))
                   (drop (S i) (take (S i) (orderByItems it2)))))).
  { intros direction Hd.
    apply (loop_decided sort_order _ _ 0 i elt1 elt2 cmp); auto.
    - rewrite lookup_take_lt by lia. exact L1.
    - rewrite lookup_take_lt by lia. exact L2.
    - intros j a b Hj. rewrite !lookup_take_lt by lia. apply Hties. exact Hj. }
  rewrite (orderby_compare_peeked next _ _ _ _ _ _ _ P1 P2), Hv. cbn [bind].
  split; intros Hd.
  - rewrite (loop_decided sort_order _ _ 0 i elt1 elt2 cmp L1 L2 Hties Hc Hne _ Hd).
    rewrite (Htake _ Hd). split; reflexivity.
  - rewrite (loop_decided sort_order _ _ 0 i elt1 elt2 cmp L1 L2 Hties Hc Hne _ Hd).
    rewrite (Htake _ Hd). split; reflexivity.
Qed.

Lemma C2_first_difference_witness :
  let it1 := item_of [key_of (VStr "a"); key_of (VNum 1); key_of (VBool true)] in
  let it2 := item_of [key_of (VStr "a"); key_of (VNum 2); key_of (VBool false)] in
  let p1 := fresh_producer (range_of (VStr "00")) [[it1]] in
  let p2 := fresh_producer (range_of (VStr "AA")) [[it2]] in
  fst (_OrderByDocumentProducerComparator.compare paged_anext
         ["Ascending"; "Descending"; "Ascending"] p1 p2) = Ok 1.
Proof.
  intros it1 it2 p1 p2.
  destruct (C2_first_difference paged_anext ["Ascending"; "Descending"; "Ascending"]
              p1 p2 it1 it2 _ _ 1%nat (key_of (VNum 1)) (key_of (VNum 2)) (-1)
              eq_refl eq_refl eq_refl eq_refl eq_refl) as [_ Hd].
  - intros j a b Hj. destruct j as [|j]; [|lia]. intros [= <-] [= <-]. reflexivity.
  - reflexivity.
  - lia.
  - destruct (Hd eq_refl) as [-> _]. reflexivity.
Defined.

(** C2, as stated, fails: the first position differs ([1] against [2]
    under "Ascending"), but the comparison does not return -1; the
    validation reads the second position too and raises on it. *)
Lemma C2_counterexample :
  let it1 := item_of [key_of (VNum 1); key_of (VStr "x")] in
  let it2 := item_of [key_of (VNum 2); key_of VNone] in
  let p1 := fresh_producer (range_of (VStr "00")) [[it1]] in
  let p2 := fresh_producer (range_of (VStr "AA")) [[it2]] in
  _OrderByHelper.compare (key_of (VNum 1)) (key_of (VNum 2)) = Ok (-1) /\
  fst (_OrderByDocumentProducerComparator.compare paged_anext
         ["Ascending"; "Ascending"] p1 p2)
  = Raise (ValueError "Expected String, but got Null.") /\
  fst (_OrderByDocumentProducerComparator.compare paged_anext
         ["Ascending"; "Ascending"] p1 p2) <> Ok (-1).
Proof. split; [reflexivity|]. split; [reflexivity|]. vm_compute. discriminate. Qed.

(** ** Peek and advance *)

(** C8.  On a producer whose execution context has a next item, two calls
    of [peek] in a row return the same item and leave the same producer,
    the execution context having been asked at most once; [__anext__] then
    returns that item without asking the execution context, and leaves the
    buffer empty. *)
Theorem C8_peek_idempotence {C : Type} (next : C -> result item_result * C)
    (p : _DocumentProducer.t (C * nat)) (y : item_result) :
  fst (next (fst (_DocumentProducer._ex_context p))) = Ok y ->
  exists x p1 p2,
    x = match _DocumentProducer._cur_item p with Some b => b | None => y end /\
    _DocumentProducer.peek (counted next) p = (Ok x, p1) /\
    _DocumentProducer.peek (counted next) p1 = (Ok x, p1) /\
    (snd (_DocumentProducer._ex_context p1)
     <= S (snd (_DocumentProducer._ex_context p)))%nat /\
    _DocumentProducer.__anext__ (counted next) p1 = (Ok x, p2) /\
    _DocumentProducer._cur_item p2 = None /\
    _DocumentProducer._ex_context p2 = _DocumentProducer._ex_context p1.
Proof.
  intros Hy. destruct p as [range [b|] [c n]]; cbn in Hy.
  - eexists _, _, _. split; [reflexivity|]. split; [reflexivity|].
    split; [reflexivity|]. split; [cbn; lia|]. repeat split.
  - unfold _DocumentProducer.peek at 1. cbn.
    destruct (next c) as [r c'] eqn:Hn. cbn in Hy. subst r.
    eexists _, _, _. split; [reflexivity|]. split; [reflexivity|].
    split; [reflexivity|]. split; [cbn; lia|]. repeat split.
Qed.

Lemma C8_peek_idempotence_witness :
  let it := item_of [key_of (VNum 1)] in
  exists p1,
    _DocumentProducer.peek (counted paged_anext)
      {| _DocumentProducer._partition_key_target_range := range_of (VStr "00");
         _DocumentProducer._cur_item := None;
         _DocumentProducer._ex_context := ([[it]; [it]], 0%nat) |} = (Ok it, p1) /\
    _DocumentProducer.peek (counted paged_anext) p1 = (Ok it, p1).
Proof.
  intros it.
  destruct (C8_peek_idempotence paged_anext
              {| _DocumentProducer._partition_key_target_range := range_of (VStr "00");
                 _DocumentProducer._cur_item := None;
                 _DocumentProducer._ex_context := ([[it]; [it]], 0%nat) |} it eq_refl)
    as (x & p1 & p2 & -> & H1 & H2 & _).
  exists p1. split; [exact H1 | exact H2].
Defined.

(** ** Order laws *)

Lemma helper_compare_classify (k1 k2 : dict) (a b : kval) :
  classify k1 = Some a -> classify k2 = Some b ->
  _OrderByHelper.compare k1 k2 = Ok (kcmp a b).
Proof.
  unfold classify, _OrderByHelper.compare, _OrderByHelper.getTypeOrd, getitem.
  destruct (k1 !! "item") as [[ | | | | | ]|]; intros [= <-];
    destruct (k2 !! "item") as [[ | | | | | ]|]; intros [= <-]; try reflexivity;
    try (cbn; f_equal; apply cmp3_Q); try (cbn; f_equal; apply cmp3_str).
  repeat match goal with b : bool |- _ => destruct b end; reflexivity.
Qed.

Lemma classify_of_ord (k : dict) (r : Z) :
  _OrderByHelper.getTypeOrd k = Ok r -> exists a, classify k = Some a.
Proof.
  unfold classify, _OrderByHelper.getTypeOrd.
  destruct (k !! "item") as [[ | | | | | ]|]; intros [= <-]; eauto.
Qed.

Lemma classify_of_str (k : dict) (t : string) :
  _OrderByHelper.getTypeStr k = Ok t -> exists a, classify k = Some a.
Proof.
  intros H. destruct (getTypeOrd_of_str _ _ H) as [Ho _].
  eapply classify_of_ord; eauto.
Qed.

Lemma helper_compare_inv (k1 k2 : dict) (x : Z) :
  _OrderByHelper.compare k1 k2 = Ok x ->
  exists a b, classify k1 = Some a /\ classify k2 = Some b /\ x = kcmp a b.
Proof.
  intros H.
  assert (exists a, classify k1 = Some a) as [a Ha].
  { unfold _OrderByHelper.compare in H.
    destruct (_OrderByHelper.getTypeOrd k1) eqn:E; [|discriminate].
    eapply classify_of_ord; eauto. }
  assert (exists b, classify k2 = Some b) as [b Hb].
  { unfold _OrderByHelper.compare in H.
    destruct (_OrderByHelper.getTypeOrd k1) eqn:E; [|discriminate].
    destruct (_OrderByHelper.getTypeOrd k2) eqn:E2; [|discriminate].
    eapply classify_of_ord; eauto. }
  exists a, b. repeat split; auto.
  rewrite (helper_compare_classify _ _ _ _ Ha Hb) in H. congruence.
Qed.

Lemma sign_ordered3 (x y z : comparison) :
  (x = Lt -> y = Lt -> z = Lt) ->
  (x = Eq -> z = y) ->
  (y = Eq -> z = x) ->
  ordered3 (sign_of x) (sign_of y) (sign_of z).
Proof.
  unfold ordered3.
  destruct x, y; intros H1 H2 H3;
    try rewrite (H1 eq_refl eq_refl); try rewrite (H2 eq_refl);
    try rewrite (H3 eq_refl); cbn; lia.
Qed.

Lemma Q_ordered3 (p q r : Q) :
  ordered3 (sign_of (Qcompare p q)) (sign_of (Qcompare q r)) (sign_of (Qcompare p r)).
Proof.
  apply sign_ordered3.
  - rewrite <- !Qlt_alt. apply Qlt_trans.
  - rewrite <- Qeq_alt. intros H. rewrite H. reflexivity.
  - rewrite <- Qeq_alt. intros H. rewrite H. reflexivity.
Qed.

Lemma str_ordered3 (s t u : string) :
  ordered3 (sign_of (String.compare s t)) (sign_of (String.compare t u))
           (sign_of (String.compare s u)).
Proof.
  apply sign_ordered3.
  - change String.compare with String_as_OT.cmp.
    rewrite !String_as_OT.cmp_lt. apply String_as_OT.lt_trans.
  - intros H. apply String.compare_eq_iff in H. subst. reflexivity.
  - intros H. apply String.compare_eq_iff in H. subst. reflexivity.
Qed.

Lemma kcmp_antisym (a b : kval) : kcmp b a = - kcmp a b.
Proof.
  destruct a as [ | |x|p|s], b as [ | |y|q|t]; cbn; try lia.
  - rewrite <- (Qcompare_antisym p q). destruct (Qcompare p q); reflexivity.
  - rewrite (String.compare_antisym s t). destruct (String.compare t s); reflexivity.
Qed.

Lemma kcmp_ordered3 (a b c : kval) :
  ordered3 (kcmp a b) (kcmp b c) (kcmp a c).
Proof.
  destruct a as [ | |x|p|s], b as [ | |y|q|t], c as [ | |z|r|u];
    try (unfold ordered3; cbn; lia);
    try (unfold ordered3; cbn;
         match goal with
         | |- context [sign_of ?c] => destruct c; cbn; lia
         | b : bool |- _ => destruct b; cbn; lia
         end).
  - apply Q_ordered3.
  - apply str_ordered3.
Qed.

Lemma kcmp_ordered3_opp (a b c : kval) :
  ordered3 (- kcmp a b) (- kcmp b c) (- kcmp a c).
Proof.
  pose proof (kcmp_ordered3 c b a) as H. unfold ordered3 in *.
  rewrite (kcmp_antisym b c), (kcmp_antisym a b), (kcmp_antisym a c) in H. lia.
Qed.

Lemma helper_compare_antisym (k1 k2 : dict) (x : Z) :
  _OrderByHelper.compare k1 k2 = Ok x -> _OrderByHelper.compare k2 k1 = Ok (- x).
Proof.
  intros H. destruct (helper_compare_inv _ _ _ H) as (a & b & Ha & Hb & ->).
  rewrite (helper_compare_classify _ _ _ _ Hb Ha). f_equal. apply kcmp_antisym.
Qed.

Lemma loop_nonzero (sort_order : list string) (pairs : list (dict * dict))
    (i : nat) (x : Z) :
  _OrderByDocumentProducerComparator.compare_loop sort_order i pairs = Ok (Some x) ->
  x <> 0.
Proof.
  revert i. induction pairs as [|[k1 k2] rest IH]; intros i; cbn; [discriminate|].
  destruct (_OrderByHelper.compare k1 k2) as [c|]; cbn; [|discriminate].
  destruct (Z.eqb_spec c 0); cbn; [apply IH|].
  destruct (index sort_order i) as [d|]; cbn; [|discriminate].
  destruct (String.eqb d "Ascending"); [intros [= <-]; assumption|].
  destruct (String.eqb d "Descending"); [intros [= <-]; lia | apply IH].
Qed.

Lemma loop_antisym (sort_order : list string) (res1 res2 : list dict)
    (i : nat) (r : option Z) :
  _OrderByDocumentProducerComparator.compare_loop sort_order i (zip res1 res2) = Ok r ->
  _OrderByDocumentProducerComparator.compare_loop sort_order i (zip res2 res1)
  = Ok (option_map Z.opp r).
Proof.
  revert res2 i r. induction res1 as [|k1 res1 IH]; intros [|k2 res2] i r;
    try (cbn; intros [= <-]; reflexivity).
  cbn [zip_with _OrderByDocumentProducerComparator.compare_loop].
  destruct (_OrderByHelper.compare k1 k2) as [c|] eqn:Hc; cbn [bind]; [|discriminate].
  rewrite (helper_compare_antisym _ _ _ Hc). cbn [bind].
  destruct (Z.eqb_spec c 0) as [->|Hne]; cbn [negb Z.opp Z.eqb]; [apply IH|].
  destruct (Z.eqb_spec (- c) 0); [lia|]. cbn [negb].
  destruct (index sort_order i) as [d|]; cbn [bind]; [|discriminate].
  destruct (String.eqb d "Ascending"); [intros [= <-]; reflexivity|].
  destruct (String.eqb d "Descending"); [intros [= <-]; reflexivity | apply IH].
Qed.

Lemma loop_ordered3 (sort_order : list string) (a b c : list dict) (i : nat)
    (rab rbc rac : option Z) :
  length a = length b -> length b = length c ->
  _OrderByDocumentProducerComparator.compare_loop sort_order i (zip a b) = Ok rab ->
  _OrderByDocumentProducerComparator.compare_loop sort_order i (zip b c) = Ok rbc ->
  _OrderByDocumentProducerComparator.compare_loop sort_order i (zip a c) = Ok rac ->
  ordered3 (lval rab) (lval rbc) (lval rac).
Proof.
  revert b c i rab rbc rac.
  induction a as [|ka a IH]; intros [|kb b] [|kc c] i rab rbc rac; try discriminate.
  - cbn. intros _ _ [= <-] [= <-] [= <-]. unfold ordered3. cbn. lia.
  - intros [= Lab] [= Lbc].
    cbn [zip_with _OrderByDocumentProducerComparator.compare_loop].
    destruct (_OrderByHelper.compare ka kb) as [x|] eqn:Hx; cbn [bind]; [|discriminate].
    destruct (_OrderByHelper.compare kb kc) as [y|] eqn:Hy; cbn [bind]; [|discriminate].
    destruct (_OrderByHelper.compare ka kc) as [z|] eqn:Hz; cbn [bind]; [|discriminate].
    destruct (helper_compare_inv _ _ _ Hx) as (A & B & HA & HB & ->).
    destruct (helper_compare_inv _ _ _ Hy) as (B' & C' & HB' & HC & ->).
    destruct (helper_compare_inv _ _ _ Hz) as (A' & C'' & HA' & HC' & ->).
    assert (B' = B) by congruence. assert (A' = A) by congruence.
    assert (C'' = C') by congruence. subst.
    pose proof (kcmp_ordered3 A B C') as K.
    pose proof (kcmp_ordered3_opp A B C') as K'.
    unfold ordered3 in K, K'.
    destruct (Z.eqb_spec (kcmp A B) 0), (Z.eqb_spec (kcmp B C') 0),
      (Z.eqb_spec (kcmp A C') 0); cbn [negb];
      try (exfalso; lia); try (apply IH; assumption);
      (destruct (index sort_order i) as [d|]; cbn [bind]; [|intros; discriminate]);
      (destruct (String.eqb d "Ascending");
       [| destruct (String.eqb d "Descending"); [| apply IH; assumption]]);
      intros Hab Hbc Hac;
      repeat match goal with
             | H : Ok _ = Ok _ |- _ => injection H as <-
             end;
      unfold ordered3; cbn [lval]; lia.
Qed.

Lemma validate_types_iff (res1 res2 : list dict) :
  length res1 = length res2 ->
  _OrderByDocumentProducerComparator.validate_types (zip res1 res2) = Ok tt <->
  Forall2 same_type res1 res2.
Proof.
  revert res2. induction res1 as [|k1 res1 IH]; intros [|k2 res2]; try discriminate.
  - intros _. split; [constructor | reflexivity].
  - intros [= Hlen]. split.
    + intros H. destruct (validate_types_head _ _ _ H) as (t & H1 & H2 & Hr).
      constructor; [exists t; auto | apply IH; auto].
    + intros H. inversion H as [|? ? ? ? (t & H1 & H2) Hr]; subst.
      cbn. rewrite H1, H2. cbn. rewrite String.eqb_refl. cbn. apply IH; auto.
Qed.

Lemma validate_iff (sort_order : list string) (res1 res2 : list dict) :
  _OrderByDocumentProducerComparator._validate_orderby_items sort_order res1 res2
  = Ok tt <->
  length res1 = length res2 /\ length res1 = length sort_order /\
  Forall2 same_type res1 res2.
Proof.
  split.
  - intros H. destruct (validate_ok _ _ _ H) as (L1 & L2 & Ht).
    repeat split; auto. apply validate_types_iff; auto.
  - intros (L1 & L2 & Ht).
    unfold _OrderByDocumentProducerComparator._validate_orderby_items.
    rewrite L1, Nat.eqb_refl. rewrite <- L1, L2, Nat.eqb_refl. cbn.
    apply validate_types_iff; auto.
Qed.

Lemma same_type_sym (k1 k2 : dict) : same_type k1 k2 -> same_type k2 k1.
Proof. intros (t & H1 & H2). exists t. auto. Qed.

Lemma same_type_trans (k1 k2 k3 : dict) :
  same_type k1 k2 -> same_type k2 k3 -> same_type k1 k3.
Proof.
  intros (t & H1 & H2) (t' & H2' & H3). exists t. split; auto. congruence.
Qed.

Lemma Forall2_same_type_sym (l1 l2 : list dict) :
  Forall2 same_type l1 l2 -> Forall2 same_type l2 l1.
Proof. induction 1; constructor; auto using same_type_sym. Qed.

Lemma Forall2_same_type_trans (l1 l2 l3 : list dict) :
  Forall2 same_type l1 l2 -> Forall2 same_type l2 l3 -> Forall2 same_type l1 l3.
Proof.
  intros H. revert l3. induction H; intros l3 H3; inversion H3; subst;
    constructor; eauto using same_type_trans.
Qed.

(** The loop returns on keys that all have a type, given enough sort
    orders. *)
Lemma loop_total (sort_order : list string) (res1 res2 : list dict) (i : nat) :
  Forall2 same_type res1 res2 ->
  (i + length res1 <= length sort_order)%nat ->
  exists r,
    _OrderByDocumentProducerComparator.compare_loop sort_order i (zip res1 res2)
    = Ok r.
Proof.
  intros H. revert i. induction H as [|k1 k2 res1 res2 (t & H1 & H2) _ IH]; intros i Hi.
  - eexists. reflexivity.
  - cbn [zip_with _OrderByDocumentProducerComparator.compare_loop].
    destruct (classify_of_str _ _ H1) as [a Ha].
    destruct (classify_of_str _ _ H2) as [b Hb].
    rewrite (helper_compare_classify _ _ _ _ Ha Hb). cbn [bind].
    cbn [length] in Hi.
    destruct (IH (S i)) as [r Hr]; [lia|].
    destruct (negb (kcmp a b =? 0)%Z); [|eauto].
    unfold index. destruct (lookup_lt_is_Some_2 sort_order i) as [d ->]; [lia|].
    cbn [bind]. destruct (String.eqb d "Ascending"); [eauto|].
    destruct (String.eqb d "Descending"); eauto.
Qed.

(** ** The tie-break on bounds that are not lists *)

Lemma compare_helper_inv (a b : pyval) (t : Z) :
  not_list a -> not_list b ->
  _compare_helper a b = Ok t ->
  (a = VNone /\ b = VNone /\ t = 0) \/
  (exists p q, as_number a = Some p /\ as_number b = Some q /\
               t = sign_of (Qcompare p q)) \/
  (exists s u, a = VStr s /\ b = VStr u /\ t = sign_of (String.compare s u)).
Proof.
  destruct a, b; cbn; intros Ha Hb; try contradiction; try discriminate;
    intros [= <-].
  - left. auto.
  - right. left. eexists _, _. repeat split. apply cmp3_Q.
  - right. left. eexists _, _. repeat split. apply cmp3_Q.
  - right. left. eexists _, _. repeat split. apply cmp3_Q.
  - right. left. eexists _, _. repeat split. apply cmp3_Q.
  - right. right. eexists _, _. repeat split. apply cmp3_str.
Qed.

Lemma compare_helper_numbers (a b : pyval) (p q : Q) :
  as_number a = Some p -> as_number b = Some q ->
  _compare_helper a b = Ok (sign_of (Qcompare p q)).
Proof.
  destruct a, b; cbn; try discriminate; intros [= <-] [= <-];
    f_equal; apply cmp3_Q.
Qed.

Lemma compare_helper_antisym (a b : pyval) (t : Z) :
  not_list a -> not_list b ->
  _compare_helper a b = Ok t -> _compare_helper b a = Ok (- t).
Proof.
  intros Ha Hb H.
  destruct (compare_helper_inv _ _ _ Ha Hb H)
    as [(-> & -> & ->) | [(p & q & Hp & Hq & ->) | (s & u & -> & -> & ->)]].
  - reflexivity.
  - rewrite (compare_helper_numbers _ _ _ _ Hq Hp). f_equal.
    rewrite <- (Qcompare_antisym p q). destruct (Qcompare p q); reflexivity.
  - rewrite compare_helper_str. f_equal.
    rewrite (String.compare_antisym s u). destruct (String.compare u s); reflexivity.
Qed.

Lemma compare_helper_ordered3 (a b c : pyval) (x y : Z) :
  not_list a -> not_list b -> not_list c ->
  _compare_helper a b = Ok x -> _compare_helper b c = Ok y ->
  exists z, _compare_helper a c = Ok z /\ ordered3 x y z.
Proof.
  intros Ha Hb Hc Hx Hy.
  destruct (compare_helper_inv _ _ _ Ha Hb Hx)
    as [(-> & -> & ->) | [(p & q & Hp & Hq & ->) | (s & u & -> & -> & ->)]];
    destruct (compare_helper_inv _ _ _ Hb Hc Hy)
    as [(E1 & -> & ->) | [(q' & r & Hq' & Hr & ->) | (u' & v & E1 & -> & ->)]];
    try discriminate; try (subst; discriminate).
  - exists 0. split; [reflexivity|]. unfold ordered3. lia.
  - assert (q' = q) by congruence. subst q'.
    rewrite (compare_helper_numbers _ _ _ _ Hp Hr). eexists. split; [reflexivity|].
    apply Q_ordered3.
  - injection E1 as <-. rewrite compare_helper_str. eexists. split; [reflexivity|].
    apply str_ordered3.
Qed.

Section OrderLaws.
Context {C : Type} (next : C -> result item_result * C).
Implicit Types p : _DocumentProducer.t C.

Lemma range_compare_inv p1 p2 (x : Z) :
  _PartitionKeyRangeDocumentProducerComparator.compare p1 p2 = Ok x ->
  exists a b,
    _DocumentProducer.get_target_range p1 !! "minInclusive" = Some a /\
    _DocumentProducer.get_target_range p2 !! "minInclusive" = Some b /\
    _compare_helper a b = Ok x.
Proof.
  unfold _PartitionKeyRangeDocumentProducerComparator.compare, getitem.
  destruct (_ !! "minInclusive") as [a|]; [|discriminate].
  destruct (_ !! "minInclusive") as [b|]; [|discriminate].
  cbn. eauto.
Qed.

Lemma range_compare_intro p1 p2 (a b : pyval) :
  _DocumentProducer.get_target_range p1 !! "minInclusive" = Some a ->
  _DocumentProducer.get_target_range p2 !! "minInclusive" = Some b ->
  _PartitionKeyRangeDocumentProducerComparator.compare p1 p2 = _compare_helper a b.
Proof.
  intros H1 H2. unfold _PartitionKeyRangeDocumentProducerComparator.compare, getitem.
  rewrite H1, H2. reflexivity.
Qed.

Lemma orderby_compare_inv sort_order p1 p2 it1 it2 p1' p2' (x : Z) :
  _DocumentProducer.peek next p1 = (Ok it1, p1') ->
  _DocumentProducer.peek next p2 = (Ok it2, p2') ->
  fst (_OrderByDocumentProducerComparator.compare next sort_order p1 p2) = Ok x ->
  _OrderByDocumentProducerComparator._validate_orderby_items
    sort_order (orderByItems it1) (orderByItems it2) = Ok tt /\
  exists r,
    _OrderByDocumentProducerComparator.compare_loop sort_order 0
      (zip (orderByItems it1) (orderByItems it2)) = Ok r /\
    match r with
    | Some v => x = v
    | None => _PartitionKeyRangeDocumentProducerComparator.compare p1 p2 = Ok x
    end.
Proof.
  intros P1 P2. rewrite (orderby_compare_peeked next _ _ _ _ _ _ _ P1 P2). cbn [fst].
  destruct (_OrderByDocumentProducerComparator._validate_orderby_items _ _ _)
    as [[]|]; cbn [bind]; [|discriminate].
  destruct (_OrderByDocumentProducerComparator.compare_loop _ _ _) as [r|];
    cbn [bind]; [|discriminate].
  intros H. split; [reflexivity|]. exists r. split; [reflexivity|].
  destruct r; [congruence | exact H].
Qed.

Lemma orderby_compare_intro sort_order p1 p2 it1 it2 p1' p2' (r : option Z) :
  _DocumentProducer.peek next p1 = (Ok it1, p1') ->
  _DocumentProducer.peek next p2 = (Ok it2, p2') ->
  _OrderByDocumentProducerComparator._validate_orderby_items
    sort_order (orderByItems it1) (orderByItems it2) = Ok tt ->
  _OrderByDocumentProducerComparator.compare_loop sort_order 0
    (zip (orderByItems it1) (orderByItems it2)) = Ok r ->
  fst (_OrderByDocumentProducerComparator.compare next sort_order p1 p2)
  = match r with
    | Some v => Ok v
    | None => _PartitionKeyRangeDocumentProducerComparator.compare p1 p2
    end.
Proof.
  intros P1 P2 Hv Hl. rewrite (orderby_compare_peeked next _ _ _ _ _ _ _ P1 P2).
  cbn [fst]. rewrite Hv, Hl. reflexivity.
Qed.

(** C7 (as amended).  For producers whose partition-range bounds are not
    lists: the order-by comparator returns an integer on two peeked key
    lists that its validation accepts when the bounds are strings; whenever
    it returns [x] on [(a, b)] it returns [- x] on [(b, a)]; and when it
    returns values [<= 0] on [(a, b)] and on [(b, c)], it returns a value
    [<= 0] on [(a, c)]. *)
Theorem C7_total_order (sort_order : list string) pa pb pc
    (ita itb itc : item_result) pa' pb' pc' :
  _DocumentProducer.peek next pa = (Ok ita, pa') ->
  _DocumentProducer.peek next pb = (Ok itb, pb') ->
  _DocumentProducer.peek next pc = (Ok itc, pc') ->
  bound_not_list pa -> bound_not_list pb -> bound_not_list pc ->
  (forall s t,
      _DocumentProducer.get_target_range pa !! "minInclusive" = Some (VStr s) ->
      _DocumentProducer.get_target_range pb !! "minInclusive" = Some (VStr t) ->
      _OrderByDocumentProducerComparator._validate_orderby_items
        sort_order (orderByItems ita) (orderByItems itb) = Ok tt ->
      exists x,
        fst (_OrderByDocumentProducerComparator.compare next sort_order pa pb) = Ok x) /\
  (forall x,
      fst (_OrderByDocumentProducerComparator.compare next sort_order pa pb) = Ok x ->
      fst (_OrderByDocumentProducerComparator.compare next sort_order pb pa)
      = Ok (- x)) /\
  (forall x y,
      fst (_OrderByDocumentProducerComparator.compare next sort_order pa pb) = Ok x ->
      fst (_OrderByDocumentProducerComparator.compare next sort_order pb pc) = Ok y ->
      x <= 0 -> y <= 0 ->
      exists z,
        fst (_OrderByDocumentProducerComparator.compare next sort_order pa pc) = Ok z /\
        z <= 0).
Proof.
  intros Pa Pb Pc Na Nb Nc. split; [|split].
  - intros s t Ba Bb Hv.
    destruct (proj1 (validate_iff _ _ _) Hv) as (L1 & L2 & Ht).
    destruct (loop_total sort_order _ _ 0 Ht) as [r Hr]; [lia|].
    rewrite (orderby_compare_intro _ _ _ _ _ _ _ _ Pa Pb Hv Hr).
    destruct r; [eauto|].
    rewrite (range_compare_intro _ _ _ _ Ba Bb), compare_helper_str. eauto.
  - intros x Hx.
    destruct (orderby_compare_inv _ _ _ _ _ _ _ _ Pa Pb Hx) as (Hv & r & Hr & Hfin).
    destruct (proj1 (validate_iff _ _ _) Hv) as (L1 & L2 & Ht).
    assert (Hv' : _OrderByDocumentProducerComparator._validate_orderby_items
                    sort_order (orderByItems itb) (orderByItems ita) = Ok tt).
    { apply validate_iff. repeat split; [lia | lia |].
      apply Forall2_same_type_sym. exact Ht. }
    rewrite (orderby_compare_intro _ _ _ _ _ _ _ _ Pb Pa Hv' (loop_antisym _ _ _ _ _ Hr)).
    destruct r as [v|]; cbn [option_map]; [congruence|].
    destruct (range_compare_inv _ _ _ Hfin) as (a & b & Ba & Bb & Hc).
    rewrite (range_compare_intro _ _ _ _ Bb Ba).
    apply compare_helper_antisym; auto.
  - intros x y Hx Hy Hx0 Hy0.
    destruct (orderby_compare_inv _ _ _ _ _ _ _ _ Pa Pb Hx) as (Hv1 & r1 & Hr1 & Hf1).
    destruct (orderby_compare_inv _ _ _ _ _ _ _ _ Pb Pc Hy) as (Hv2 & r2 & Hr2 & Hf2).
    destruct (proj1 (validate_iff _ _ _) Hv1) as (L1 & L2 & Ht1).
    destruct (proj1 (validate_iff _ _ _) Hv2) as (L3 & L4 & Ht2).
    assert (Ht3 := Forall2_same_type_trans _ _ _ Ht1 Ht2).
    assert (Hv3 : _OrderByDocumentProducerComparator._validate_orderby_items
                    sort_order (orderByItems ita) (orderByItems itc) = Ok tt).
    { apply validate_iff. repeat split; [lia | lia | exact Ht3]. }
    destruct (loop_total sort_order _ _ 0 Ht3) as [r3 Hr3]; [lia|].
    rewrite (orderby_compare_intro _ _ _ _ _ _ _ _ Pa Pc Hv3 Hr3).
    pose proof (loop_ordered3 _ _ _ _ _ _ _ _ L1 L3 Hr1 Hr2 Hr3) as Ho.
    unfold ordered3 in Ho.
    assert (N1 : forall v, r1 = Some v -> v <> 0) by (intros v ->; eapply loop_nonzero; eauto).
    assert (N2 : forall v, r2 = Some v -> v <> 0) by (intros v ->; eapply loop_nonzero; eauto).
    assert (N3 : forall v, r3 = Some v -> v <> 0) by (intros v ->; eapply loop_nonzero; eauto).
    destruct r1 as [v1|], r2 as [v2|], r3 as [v3|]; cbn [lval] in Ho; subst;
      try specialize (N1 _ eq_refl); try specialize (N2 _ eq_refl);
      try specialize (N3 _ eq_refl);
      try (exists v3; split; [reflexivity | lia]); try (exfalso; lia).
    destruct (range_compare_inv _ _ _ Hf1) as (a & b & Ba & Bb & Hc1).
    destruct (range_compare_inv _ _ _ Hf2) as (b' & c & Bb' & Bc & Hc2).
    assert (b' = b) by congruence. subst b'.
    destruct (compare_helper_ordered3 a b c x y) as (z & Hz & Hoz); auto.
    exists z. rewrite (range_compare_intro _ _ _ _ Ba Bc). split; [exact Hz|].
    unfold ordered3 in Hoz. lia.
Qed.
End OrderLaws.

Lemma C7_total_order_witness :
  let pa := fresh_producer (range_of (VStr "00"))
              [[item_of [key_of (VNum 1); key_of (VStr "x")]]] in
  let pb := fresh_producer (range_of (VStr "55"))
              [[item_of [key_of (VNum 1); key_of (VStr "b")]]] in
  let pc := fresh_producer (range_of (VStr "AA"))
              [[item_of [key_of (VNum 1); key_of (VStr "b")]]] in
  let order := ["Ascending"; "Descending"] in
  fst (_OrderByDocumentProducerComparator.compare paged_anext order pb pa) = Ok 1 /\
  exists z,
    fst (_OrderByDocumentProducerComparator.compare paged_anext order pa pc) = Ok z /\
    z <= 0.
Proof.
  intros pa pb pc order.
  assert (N : forall s pages, bound_not_list (fresh_producer (range_of (VStr s)) pages)).
  { intros s pages v H. cbn in H. unfold range_of in H.
    rewrite lookup_singleton_eq in H. injection H as <-. exact I. }
  destruct (C7_total_order paged_anext order pa pb pc _ _ _ _ _ _
              eq_refl eq_refl eq_refl (N _ _) (N _ _) (N _ _)) as (_ & Hanti & Htrans).
  split.
  - apply (Hanti (-1)). reflexivity.
  - apply (Htrans (-1) (-1)); [reflexivity | reflexivity | lia | lia].
Defined.

(** C7, as stated, fails: the key lists [Undefined] and [Null] have equal
    length 1, the sort order has length 1, and the comparison returns no
    integer in either direction. *)
Lemma C7_counterexample :
  let pa := fresh_producer (range_of (VStr "00")) [[item_of [key_undefined]]] in
  let pb := fresh_producer (range_of (VStr "AA")) [[item_of [key_of VNone]]] in
  fst (_OrderByDocumentProducerComparator.compare paged_anext ["Ascending"] pa pb)
  = Raise (ValueError "Expected NoValue, but got Null.") /\
  fst (_OrderByDocumentProducerComparator.compare paged_anext ["Ascending"] pb pa)
  = Raise (ValueError "Expected Null, but got NoValue.") /\
  ~ (exists x,
        fst (_OrderByDocumentProducerComparator.compare paged_anext
               ["Ascending"] pa pb) = Ok x /\
        fst (_OrderByDocumentProducerComparator.compare paged_anext
               ["Ascending"] pb pa) = Ok (- x)).
Proof.
  split; [reflexivity|]. split; [reflexivity|].
  intros [x [H _]]. vm_compute in H. discriminate H.
Qed.

(** ** The merge of paged partitions *)

Lemma paged_anext_spec (pages : list (list item_result)) :
  (paged_anext pages = (Raise StopAsyncIteration, []) /\ items_of pages = []) \/
  (exists x pages', paged_anext pages = (Ok x, pages') /\
                    items_of pages = x :: items_of pages').
Proof.
  unfold items_of. induction pages as [|[|x page] rest IH]; cbn.
  - left. auto.
  - exact IH.
  - right. exists x, (page :: rest). auto.
Qed.

Lemma key_le_trans (x y z : item_result) : key_le x y -> key_le y z -> key_le x z.
Proof.
  unfold key_le. destruct (num_key x), (num_key y), (num_key z); try tauto.
  apply Qle_trans.
Qed.

Lemma num_key_inv (it : item_result) (q : Q) :
  num_key it = Some q ->
  exists k, orderByItems it = [k] /\ k !! "item" = Some (VNum q).
Proof.
  unfold num_key. destruct (orderByItems it) as [|k [|]]; try discriminate.
  destruct (k !! "item") as [[ | |q'| | | ]|] eqn:E; try discriminate.
  intros [= <-]. eauto.
Qed.

(** The order-by comparator on two peeked producers with numeric keys. *)
Lemma compare_numeric (p1 p2 : paged_producer) (x y : item_result) (a b : Q) :
  _DocumentProducer._cur_item p1 = Some x ->
  _DocumentProducer._cur_item p2 = Some y ->
  num_key x = Some a -> num_key y = Some b ->
  string_bound p1 -> string_bound p2 ->
  exists c,
    _OrderByDocumentProducerComparator.compare paged_anext ["Ascending"] p1 p2
    = (Ok c, (p1, p2)) /\
    (c < 0 -> (a <= b)%Q) /\ (0 <= c -> (b <= a)%Q).
Proof.
  intros C1 C2 K1 K2 [s Hs] [t Ht].
  destruct (num_key_inv _ _ K1) as (k1 & E1 & I1).
  destruct (num_key_inv _ _ K2) as (k2 & E2 & I2).
  rewrite (orderby_compare_peeked paged_anext _ _ _ _ _ _ _
             (peek_buffered _ _ _ C1) (peek_buffered _ _ _ C2)).
  rewrite E1, E2.
  assert (Hc : _OrderByHelper.compare k1 k2 = Ok (sign_of (Qcompare a b))).
  { apply (helper_compare_classify k1 k2 (KNum a) (KNum b));
      unfold classify; [rewrite I1 | rewrite I2]; reflexivity. }
  unfold _OrderByDocumentProducerComparator._validate_orderby_items.
  cbn [length Nat.eqb negb zip_with
       _OrderByDocumentProducerComparator.validate_types
       _OrderByDocumentProducerComparator.compare_loop].
  unfold _OrderByHelper.getTypeStr. rewrite I1, I2. cbn [bind String.eqb negb].
  rewrite Hc. cbn [bind].
  rewrite (range_compare_intro _ _ _ _ Hs Ht), compare_helper_str.
  pose proof (Qcompare_spec a b) as Hab.
  destruct (Qcompare a b); cbn; inversion Hab as [Hq|Hq|Hq].
  - eexists. split; [reflexivity|]. rewrite Hq. split; intros _; apply Qle_refl.
  - eexists. split; [reflexivity|]. split; [intros _; apply Qlt_le_weak; exact Hq | lia].
  - eexists. split; [reflexivity|]. split; [lia | intros _; apply Qlt_le_weak; exact Hq].
Qed.

Lemma live_ok_head (p : paged_producer) :
  live_ok p ->
  exists x a, _DocumentProducer._cur_item p = Some x /\ num_key x = Some a /\
              head_key p = Some a.
Proof.
  intros ([x Hx] & _ & Hn & _). unfold remaining in Hn. rewrite Hx in Hn.
  inversion Hn as [|? ? [a Ha] _]; subst. exists x, a. unfold head_key.
  rewrite Hx. auto.
Qed.

Lemma head_le_refl (p : paged_producer) : live_ok p -> head_le p p.
Proof.
  intros H. destruct (live_ok_head _ H) as (x & a & _ & _ & Hk).
  unfold head_le. rewrite Hk. apply Qle_refl.
Qed.

Lemma head_le_trans (p1 p2 p3 : paged_producer) :
  head_le p1 p2 -> head_le p2 p3 -> head_le p1 p3.
Proof.
  unfold head_le. destruct (head_key p1), (head_key p2), (head_key p3); try tauto.
  apply Qle_trans.
Qed.

Lemma compare_live (p1 p2 : paged_producer) :
  live_ok p1 -> live_ok p2 ->
  exists c,
    _OrderByDocumentProducerComparator.compare paged_anext ["Ascending"] p1 p2
    = (Ok c, (p1, p2)) /\
    (c < 0 -> head_le p1 p2) /\ (0 <= c -> head_le p2 p1).
Proof.
  intros H1 H2.
  destruct (live_ok_head _ H1) as (x & a & C1 & K1 & Hk1).
  destruct (live_ok_head _ H2) as (y & b & C2 & K2 & Hk2).
  destruct H1 as (_ & B1 & _). destruct H2 as (_ & B2 & _).
  destruct (compare_numeric p1 p2 x y a b C1 C2 K1 K2 B1 B2) as (c & Hc & Hlt & Hge).
  exists c. unfold head_le. rewrite Hk1, Hk2. auto.
Qed.

Lemma select_min_spec (rest : list paged_producer) (best : paged_producer) :
  live_ok best -> Forall live_ok rest ->
  exists m others,
    MergeCoordinator.select_min
      (_OrderByDocumentProducerComparator.compare paged_anext ["Ascending"])
      best rest = Ok (m, others) /\
    Permutation (m :: others) (best :: rest) /\
    (forall o, In o (best :: rest) -> head_le m o).
Proof.
  revert best. induction rest as [|p rest IH]; intros best Hb Hr.
  - exists best, []. split; [reflexivity|]. split; [reflexivity|].
    intros o [<-|[]]. apply head_le_refl. exact Hb.
  - inversion Hr as [|? ? Hp Hr']; subst.
    destruct (compare_live p best Hp Hb) as (c & Hc & Hlt & Hge).
    cbn [MergeCoordinator.select_min]. rewrite Hc. cbn [bind].
    destruct (Z.ltb_spec c 0) as [Hneg|Hpos].
    + destruct (IH p Hp Hr') as (m & others & Hs & Hperm & Hmin).
      rewrite Hs. cbn [bind]. exists m, (best :: others).
      split; [reflexivity|]. split.
      * etransitivity; [apply perm_swap|]. apply perm_skip. exact Hperm.
      * intros o [<-|Ho]; [|apply Hmin; exact Ho].
        apply (head_le_trans m p); [apply Hmin; left; reflexivity | auto].
    + destruct (IH best Hb Hr') as (m & others & Hs & Hperm & Hmin).
      rewrite Hs. cbn [bind]. exists m, (p :: others).
      split; [reflexivity|]. split.
      * etransitivity; [apply perm_swap|].
        etransitivity; [apply perm_skip; exact Hperm | apply perm_swap].
      * intros o [<-|[<-|Ho]].
        -- apply Hmin. left. reflexivity.
        -- apply (head_le_trans m best); [apply Hmin; left; reflexivity | auto].
        -- apply Hmin. right. exact Ho.
Qed.

Lemma all_remaining_perm (l l' : list paged_producer) :
  Permutation l l' -> Permutation (all_remaining l) (all_remaining l').
Proof.
  unfold all_remaining. induction 1; cbn.
  - reflexivity.
  - apply Permutation_app_head. assumption.
  - rewrite !app_assoc. apply Permutation_app_tail. apply Permutation_app_comm.
  - etransitivity; eassumption.
Qed.

Lemma live_ok_above (m o : paged_producer) (x : item_result) :
  live_ok o -> _DocumentProducer._cur_item m = Some x -> head_le m o ->
  Forall (key_le x) (remaining o).
Proof.
  intros Ho Hx Hle.
  destruct (live_ok_head _ Ho) as (y & b & Cy & Ky & Hk).
  destruct Ho as (_ & _ & _ & Hs). unfold remaining in *. rewrite Cy in *.
  assert (Hxy : key_le x y).
  { unfold head_le, head_key in Hle. rewrite Hx, Cy in Hle. exact Hle. }
  apply StronglySorted_inv in Hs. destruct Hs as [_ Hall].
  constructor; [exact Hxy|].
  eapply List.Forall_impl; [|exact Hall]. intros z Hz. cbn in Hz.
  eapply key_le_trans; eauto.
Qed.

Lemma pull_spec (p : paged_producer) (rest : list paged_producer) :
  Forall live_ok (p :: rest) ->
  exists x live',
    MergeCoordinator.pull paged_anext
      (_OrderByDocumentProducerComparator.compare paged_anext ["Ascending"])
      (p :: rest) = Ok (Some (x, live')) /\
    Forall live_ok live' /\
    Permutation (all_remaining (p :: rest)) (x :: all_remaining live') /\
    Forall (key_le x) (all_remaining live').
Proof.
  intros Hlive. inversion Hlive as [|? ? Hp Hrest]; subst.
  destruct (select_min_spec rest p Hp Hrest) as (m & others & Hs & Hperm & Hmin).
  assert (Hlive' : Forall live_ok (m :: others))
    by (eapply Permutation_Forall; [symmetry; exact Hperm | exact Hlive]).
  inversion Hlive' as [|? ? Hm Hothers]; subst.
  assert (Hmin' : forall o, In o others -> head_le m o).
  { intros o Ho. apply Hmin. eapply Permutation_in; [exact Hperm|]. right. exact Ho. }
  destruct m as [range cur pages].
  destruct Hm as ([x Hx] & Hbound & Hnum & Hsorted). cbn in Hx. subst cur.
  unfold remaining in Hnum, Hsorted. cbn in Hnum, Hsorted.
  assert (Habove : Forall (key_le x) (all_remaining others)).
  { unfold all_remaining. clear - Hothers Hmin'.
    induction others as [|o others IH]; cbn; [constructor|].
    inversion Hothers as [|? ? Ho Hothers']; subst. apply Forall_app. split.
    - refine (live_ok_above _ o x Ho _ (Hmin' o (or_introl eq_refl))). reflexivity.
    - apply IH; [assumption | intros o' Ho'; apply Hmin'; right; exact Ho']. }
  apply StronglySorted_inv in Hsorted. destruct Hsorted as [Hsorted Hx_le].
  inversion Hnum as [|? ? Hxnum Hnum']; subst.
  unfold MergeCoordinator.pull. rewrite Hs. cbn [bind].
  unfold _DocumentProducer.__anext__, _DocumentProducer.peek. cbn.
  destruct (paged_anext_spec pages) as [[Hn He] | (y & pages' & Hn & He)];
    rewrite Hn; cbn.
  - exists x, others. split; [reflexivity|]. split; [exact Hothers|].
    split; [|exact Habove].
    rewrite (all_remaining_perm _ _ (Permutation_sym Hperm)).
    unfold all_remaining, remaining. cbn. rewrite He. reflexivity.
  - eexists x, (_ :: others). split; [reflexivity|].
    rewrite He in *. split; [|split].
    + constructor; [|exact Hothers]. repeat split; cbn; eauto.
    + rewrite (all_remaining_perm _ _ (Permutation_sym Hperm)).
      unfold all_remaining, remaining. cbn. rewrite He. reflexivity.
    + unfold all_remaining in *. cbn [map concat]. apply Forall_app. split.
      * unfold remaining. cbn. exact Hx_le.
      * exact Habove.
Qed.

Lemma drain_spec (fuel : nat) (live : list paged_producer) :
  Forall live_ok live ->
  (length (all_remaining live) < fuel)%nat ->
  exists out,
    MergeCoordinator.drain paged_anext
      (_OrderByDocumentProducerComparator.compare paged_anext ["Ascending"])
      fuel live = Some (Ok out) /\
    Permutation out (all_remaining live) /\
    StronglySorted key_le out.
Proof.
  revert live. induction fuel as [|fuel IH]; intros live Hlive Hfuel; [lia|].
  destruct live as [|p rest].
  - exists []. repeat split; constructor.
  - destruct (pull_spec p rest Hlive) as (x & live' & Hpull & Hlive' & Hperm & Hle).
    cbn [MergeCoordinator.drain]. rewrite Hpull.
    destruct (IH live' Hlive') as (out & Hd & Hp & Hs).
    { apply Permutation_length in Hperm. rewrite Hperm in Hfuel.
      cbn [length] in Hfuel. lia. }
    rewrite Hd. exists (x :: out). split; [reflexivity|]. split.
    + rewrite Hperm. constructor. exact Hp.
    + constructor; [exact Hs|].
      eapply Permutation_Forall; [symmetry; exact Hp | exact Hle].
Qed.

Lemma peek_all_spec (parts : list (dict * list (list item_result))) :
  Forall sorted_partition parts ->
  exists live,
    MergeCoordinator.peek_all paged_anext
      (map (fun part => fresh_producer (fst part) (snd part)) parts) = Ok live /\
    Forall live_ok live /\
    all_remaining live = concat (map (fun part => items_of (snd part)) parts).
Proof.
  induction 1 as [|[range pages] parts (Hb & Hn & Hs) _ (live & Hp & Hl & Hr)].
  - exists []. repeat split. constructor.
  - cbn [map MergeCoordinator.peek_all fst snd] in *.
    unfold _DocumentProducer.peek. cbn.
    destruct (paged_anext_spec pages) as [[Hnx He] | (y & pages' & Hnx & He)];
      rewrite Hnx; cbn.
    + exists live. rewrite He. cbn. auto.
    + rewrite Hp. cbn. eexists. split; [reflexivity|]. split.
      * constructor; [|exact Hl]. rewrite He in *.
        repeat split; cbn; eauto.
      * unfold all_remaining in *. cbn [map concat].
        rewrite Hr. unfold remaining. cbn. rewrite He. reflexivity.
Qed.

(** C9.  For partitions whose ranges have string lower bounds and whose
    items, however they are split into pages, carry a single numeric sort
    key and come in ascending order of it, the merge under ["Ascending"]
    returns a list that is a permutation of the concatenation of all
    partitions' items and is sorted in ascending order of the key. *)
Theorem C9_merge_correctness (parts : list (dict * list (list item_result))) :
  Forall sorted_partition parts ->
  exists out,
    merge_paged ["Ascending"] parts = Some (Ok out) /\
    Permutation out (concat (map (fun part => items_of (snd part)) parts)) /\
    StronglySorted key_le out.
Proof.
  intros Hparts. destruct (peek_all_spec parts Hparts) as (live & Hp & Hl & Hr).
  unfold merge_paged, MergeCoordinator.merge. rewrite Hp.
  destruct (drain_spec (S (length (concat (map (fun part => items_of (snd part)) parts))))
              live Hl) as (out & Hd & Hperm & Hs).
  { rewrite Hr. lia. }
  exists out. split; [exact Hd|]. split; [rewrite <- Hr; exact Hperm | exact Hs].
Qed.

Lemma C9_merge_correctness_witness :
  let it := fun n : Z => item_of [key_of (VNum (inject_Z n))] in
  let parts := [ (range_of (VStr "00"), [[it 1]; []; [it 4]]);
                 (range_of (VStr "55"), [[it 2; it 5]]);
                 (range_of (VStr "AA"), [[]; [it 3]; [it 6]]) ] in
  exists out,
    merge_paged ["Ascending"] parts = Some (Ok out) /\
    Permutation out (concat (map (fun part => items_of (snd part)) parts)) /\
    StronglySorted key_le out.
Proof.
  intros it parts. apply (C9_merge_correctness parts).
  unfold parts, sorted_partition, items_of. cbn [fst snd concat app].
  repeat (once constructor; try (eexists; reflexivity)).
  all: vm_compute; discriminate.
Defined.

(** * Further properties of the producer and the comparators *)

(** ** The producer *)

(** X1.  A successful [peek] does not change what the next [__anext__]
    does: after it, [__anext__] returns the peeked item and leaves the
    producer that [__anext__] without the peek would have left. *)
Theorem peek_then_advance {C : Type} (next : C -> result item_result * C)
    (p p1 : _DocumentProducer.t C) (it : item_result) :
  _DocumentProducer.peek next p = (Ok it, p1) ->
  _DocumentProducer.__anext__ next p1 = _DocumentProducer.__anext__ next p /\
  fst (_DocumentProducer.__anext__ next p) = Ok it /\
  _DocumentProducer._cur_item (snd (_DocumentProducer.__anext__ next p)) = None.
Proof.
  destruct p as [range [b|] c]; unfold _DocumentProducer.peek; cbn.
  - intros [= <- <-]. cbn. auto.
  - destruct (next c) as [[x|e] c'] eqn:Hn; intros [= <- <-].
    unfold _DocumentProducer.__anext__. cbn. auto.
Qed.

Lemma peek_then_advance_witness :
  let it := item_of [key_of (VNum 1)] in
  let p := fresh_producer (range_of (VStr "00")) [[]; [it]; [it]] in
  fst (_DocumentProducer.__anext__ paged_anext p) = Ok it.
Proof.
  intros it p.
  apply (peek_then_advance paged_anext p
           (snd (_DocumentProducer.peek paged_anext p)) it eq_refl).
Defined.

(** X2.  With an empty buffer, an exception of the execution context comes
    out of [peek] and of [__anext__] unchanged, and the buffer stays empty:
    the failure is not kept, the next [peek] asks the execution context
    again. *)
Theorem peek_failure_not_cached {C : Type} (next : C -> result item_result * C)
    (p : _DocumentProducer.t C) (e : exn) (c' : C) :
  _DocumentProducer._cur_item p = None ->
  next (_DocumentProducer._ex_context p) = (Raise e, c') ->
  exists p',
    _DocumentProducer.peek next p = (Raise e, p') /\
    _DocumentProducer.__anext__ next p = (Raise e, p') /\
    _DocumentProducer._cur_item p' = None /\
    _DocumentProducer._ex_context p' = c' /\
    fst (_DocumentProducer.peek next p') = fst (next c').
Proof.
  destruct p as [range b c]. cbn. intros -> Hn.
  unfold _DocumentProducer.peek, _DocumentProducer.__anext__. cbn. rewrite Hn.
  eexists. repeat (split; [reflexivity|]). cbn.
  destruct (next c') as [[x|e'] c'']; reflexivity.
Qed.

Lemma peek_failure_not_cached_witness :
  let p := fresh_producer (range_of (VStr "00")) [[]; []] in
  exists p', _DocumentProducer.peek paged_anext p = (Raise StopAsyncIteration, p') /\
             fst (_DocumentProducer.peek paged_anext p') = Raise StopAsyncIteration.
Proof.
  intros p.
  destruct (peek_failure_not_cached paged_anext p StopAsyncIteration [] eq_refl eq_refl)
    as (p' & H1 & _ & _ & _ & H2).
  exists p'. split; [exact H1 | exact H2].
Defined.

(** X3.  Whatever sequence of [peek] and [__anext__] calls is made on a
    producer, its partition key range stays the same and the execution
    context is asked at most once per call. *)
Theorem run_ops_frame {C : Type} (next : C -> result item_result * C)
    (ops : list producer_op) (p : _DocumentProducer.t (C * nat)) :
  _DocumentProducer.get_target_range (run_ops (counted next) ops p)
  = _DocumentProducer.get_target_range p /\
  (snd (_DocumentProducer._ex_context p)
   <= snd (_DocumentProducer._ex_context (run_ops (counted next) ops p))
   <= snd (_DocumentProducer._ex_context p) + length ops)%nat.
Proof.
  revert p. induction ops as [|op ops IH]; intros p; cbn [run_ops fold_left length].
  - split; [reflexivity | lia].
  - fold (run_ops (counted next) ops (step_op (counted next) op p)).
    destruct (IH (step_op (counted next) op p)) as [Hr Hc].
    assert (Hstep :
      _DocumentProducer.get_target_range (step_op (counted next) op p)
      = _DocumentProducer.get_target_range p /\
      (snd (_DocumentProducer._ex_context p)
       <= snd (_DocumentProducer._ex_context (step_op (counted next) op p))
       <= S (snd (_DocumentProducer._ex_context p)))%nat).
    { destruct p as [range [b|] [c n]], op; cbn;
        unfold _DocumentProducer.peek, _DocumentProducer.__anext__; cbn;
        try (split; [reflexivity | lia]);
        destruct (next c) as [[x|e] c']; cbn; split; try reflexivity; lia. }
    destruct Hstep as [Hr' Hc']. rewrite Hr, Hr'. split; [reflexivity | lia].
Qed.

(** ** The order-by comparator and its producers *)

(** X4.  A comparison consumes nothing and can be repeated: after the
    order-by comparator has peeked both producers, comparing the producers
    it left gives the same result and leaves them as they are, and the next
    [__anext__] of each returns the item that was compared. *)
Theorem compare_repeatable {C : Type} (next : C -> result item_result * C)
    (sort_order : list string) (p1 p2 p1' p2' : _DocumentProducer.t C)
    (it1 it2 : item_result) :
  _DocumentProducer.peek next p1 = (Ok it1, p1') ->
  _DocumentProducer.peek next p2 = (Ok it2, p2') ->
  snd (_OrderByDocumentProducerComparator.compare next sort_order p1 p2)
  = (p1', p2') /\
  _OrderByDocumentProducerComparator.compare next sort_order p1' p2'
  = _OrderByDocumentProducerComparator.compare next sort_order p1 p2 /\
  fst (_DocumentProducer.__anext__ next p1') = Ok it1 /\
  fst (_DocumentProducer.__anext__ next p2') = Ok it2.
Proof.
  intros P1 P2.
  pose proof (peek_again next _ _ _ P1) as P1'.
  pose proof (peek_again next _ _ _ P2) as P2'.
  rewrite (orderby_compare_peeked next sort_order _ _ _ _ _ _ P1 P2).
  rewrite (orderby_compare_peeked next sort_order _ _ _ _ _ _ P1' P2').
  rewrite (range_compare_after_peek next _ _ _ _ _ _ P1 P2).
  split; [reflexivity|]. split; [reflexivity|].
  destruct (peek_ok next _ _ _ P1) as [B1 _]. destruct (peek_ok next _ _ _ P2) as [B2 _].
  unfold _DocumentProducer.__anext__. rewrite B1, B2. split; reflexivity.
Qed.

Lemma compare_repeatable_witness :
  let it1 := item_of [key_of (VNum 1)] in
  let it2 := item_of [key_of (VNum 2)] in
  let p1 := fresh_producer (range_of (VStr "00")) [[it1]] in
  let p2 := fresh_producer (range_of (VStr "AA")) [[]; [it2]] in
  fst (_DocumentProducer.__anext__ paged_anext
         (snd (snd (_OrderByDocumentProducerComparator.compare paged_anext
                      ["Ascending"] p1 p2)))) = Ok it2.
Proof.
  intros it1 it2 p1 p2.
  destruct (compare_repeatable paged_anext ["Ascending"] p1 p2 _ _ it1 it2
              eq_refl eq_refl) as (-> & _ & _ & H).
  exact H.
Defined.

(** X5.  The order-by comparator lets a failed [peek] through: when the
    first producer's [peek] raises, the comparison raises the same and the
    second producer is not touched; when the second producer's [peek]
    raises, the comparison raises the same and the first producer keeps its
    peeked item. *)
Theorem compare_peek_failure {C : Type} (next : C -> result item_result * C)
    (sort_order : list string) (p1 p2 : _DocumentProducer.t C) :
  (forall e p1',
      _DocumentProducer.peek next p1 = (Raise e, p1') ->
      _OrderByDocumentProducerComparator.compare next sort_order p1 p2
      = (Raise e, (p1', p2))) /\
  (forall it1 p1' e p2',
      _DocumentProducer.peek next p1 = (Ok it1, p1') ->
      _DocumentProducer.peek next p2 = (Raise e, p2') ->
      _OrderByDocumentProducerComparator.compare next sort_order p1 p2
      = (Raise e, (p1', p2')) /\
      _DocumentProducer._cur_item p1' = Some it1).
Proof.
  split.
  - intros e p1' P1. unfold _OrderByDocumentProducerComparator.compare.
    rewrite P1. reflexivity.
  - intros it1 p1' e p2' P1 P2. unfold _OrderByDocumentProducerComparator.compare.
    rewrite P1, P2. split; [reflexivity|]. apply (peek_ok next _ _ _ P1).
Qed.

(** ** Validation and the two classifications of a key *)

(** X6.  [_validate_orderby_items] accepts two key lists exactly when they
    have the same length, that length is the number of sort orders, and at
    every position both keys have a type string and the two are equal. *)
Theorem validation_accepts_iff (sort_order : list string) (res1 res2 : list dict) :
  _OrderByDocumentProducerComparator._validate_orderby_items sort_order res1 res2
  = Ok tt <->
  length res1 = length res2 /\ length res1 = length sort_order /\
  Forall2 (fun k1 k2 =>
             exists t, _OrderByHelper.getTypeStr k1 = Ok t /\
                       _OrderByHelper.getTypeStr k2 = Ok t) res1 res2.
Proof. apply validate_iff. Qed.

(** X7.  [getTypeOrd] and [getTypeStr] classify alike: each returns exactly
    when the other does, and two keys have the same type string exactly when
    they have the same type ordinal. *)
Theorem type_str_matches_type_ord (k1 k2 : dict) :
  is_ok (_OrderByHelper.getTypeStr k1) = is_ok (_OrderByHelper.getTypeOrd k1) /\
  (forall t1 t2 r1 r2,
      _OrderByHelper.getTypeStr k1 = Ok t1 -> _OrderByHelper.getTypeStr k2 = Ok t2 ->
      _OrderByHelper.getTypeOrd k1 = Ok r1 -> _OrderByHelper.getTypeOrd k2 = Ok r2 ->
      (t1 = t2 <-> r1 = r2)).
Proof.
  split.
  - unfold _OrderByHelper.getTypeStr, _OrderByHelper.getTypeOrd.
    destruct (k1 !! "item") as [[ | | | | | ]|]; reflexivity.
  - intros t1 t2 r1 r2 S1 S2 O1 O2.
    destruct (getTypeOrd_of_str _ _ S1) as [O1' I1].
    destruct (getTypeOrd_of_str _ _ S2) as [O2' I2].
    assert (r1 = ord_of_type_str t1) by congruence.
    assert (r2 = ord_of_type_str t2) by congruence. subst r1 r2. split.
    + intros ->. reflexivity.
    + apply ord_of_type_str_inj; assumption.
Qed.

Lemma type_str_matches_type_ord_witness :
  "Number" = "String" <-> 4 = 5.
Proof.
  apply (type_str_matches_type_ord (key_of (VNum 1)) (key_of (VStr "a")));
    reflexivity.
Defined.

Lemma compare_peek_failure_witness :
  let it := item_of [key_of (VNum 1)] in
  let p1 := fresh_producer (range_of (VStr "00")) [[]] in
  let p2 := fresh_producer (range_of (VStr "AA")) [[it]] in
  _OrderByDocumentProducerComparator.compare paged_anext ["Ascending"] p1 p2
  = (Raise StopAsyncIteration, (fresh_producer (range_of (VStr "00")) [], p2)).
Proof.
  intros it p1 p2.
  apply (proj1 (compare_peek_failure paged_anext ["Ascending"] p1 p2)).
  reflexivity.
Defined.

(** ** The values the comparators return *)

Lemma compare_helper_sign (a b : pyval) (t : Z) :
  _compare_helper a b = Ok t -> -1 <= t <= 1.
Proof.
  unfold _compare_helper.
  assert (H : (g <- py_gt a b ;; l <- py_lt a b ;; Ok (Z.b2z g - Z.b2z l)) = Ok t ->
              -1 <= t <= 1).
  { destruct (py_gt a b) as [[|]|]; cbn; [| |discriminate];
      (destruct (py_lt a b) as [[|]|]; cbn; [| |discriminate]);
      intros [= <-]; cbn; lia. }
  destruct a, b; try exact H. intros [= <-]. lia.
Qed.

Lemma same_type_compare_sign (k1 k2 : dict) (x : Z) :
  same_type k1 k2 -> _OrderByHelper.compare k1 k2 = Ok x -> -1 <= x <= 1.
Proof.
  intros (t & T1 & T2) Hc.
  destruct (helper_compare_inv _ _ _ Hc) as (a & b & Ha & Hb & ->).
  assert (krank a = krank b).
  { destruct (getTypeOrd_of_str _ _ T1) as [O1 _].
    destruct (getTypeOrd_of_str _ _ T2) as [O2 _].
    revert Ha Hb O1 O2. unfold classify, _OrderByHelper.getTypeOrd.
    destruct (k1 !! "item") as [[ | | | | | ]|]; intros [= <-];
      destruct (k2 !! "item") as [[ | | | | | ]|]; intros [= <-];
      intros [= E1] [= E2]; cbn; lia. }
  destruct a as [ | |x|p|s], b as [ | |y|q|u]; cbn in *; try lia.
  - destruct x, y; cbn; lia.
  - destruct (Qcompare p q); cbn; lia.
  - destruct (String.compare s u); cbn; lia.
Qed.

Lemma loop_sign (sort_order : list string) (res1 res2 : list dict) (i : nat) (x : Z) :
  Forall2 same_type res1 res2 ->
  _OrderByDocumentProducerComparator.compare_loop sort_order i (zip res1 res2)
  = Ok (Some x) ->
  -1 <= x <= 1.
Proof.
  intros H. revert i. induction H as [|k1 k2 res1 res2 Hk _ IH]; intros i.
  - discriminate.
  - cbn [zip_with _OrderByDocumentProducerComparator.compare_loop].
    destruct (_OrderByHelper.compare k1 k2) as [c|] eqn:Hc; cbn [bind]; [|discriminate].
    pose proof (same_type_compare_sign _ _ _ Hk Hc) as Hs.
    destruct (negb (c =? 0)%Z); [|apply IH].
    destruct (index sort_order i) as [d|]; cbn [bind]; [|discriminate].
    destruct (String.eqb d "Ascending"); [intros [= <-]; lia|].
    destruct (String.eqb d "Descending"); [intros [= <-]; lia | apply IH].
Qed.

(** X8.  Whatever the producers and the sort order, a result of the
    order-by comparator is -1, 0 or 1: the keys it accepts have the same
    type at every position, so the single-key comparison never returns a
    difference of type ordinals there. *)
Theorem orderby_compare_sign {C : Type} (next : C -> result item_result * C)
    (sort_order : list string) (p1 p2 : _DocumentProducer.t C) (x : Z) :
  fst (_OrderByDocumentProducerComparator.compare next sort_order p1 p2) = Ok x ->
  x = -1 \/ x = 0 \/ x = 1.
Proof.
  intros H. assert (-1 <= x <= 1); [|lia].
  destruct (_DocumentProducer.peek next p1) as [[it1|e1] p1'] eqn:P1.
  2:{ unfold _OrderByDocumentProducerComparator.compare in H. rewrite P1 in H.
      discriminate H. }
  destruct (_DocumentProducer.peek next p2) as [[it2|e2] p2'] eqn:P2.
  2:{ unfold _OrderByDocumentProducerComparator.compare in H. rewrite P1, P2 in H.
      discriminate H. }
  destruct (orderby_compare_inv next _ _ _ _ _ _ _ _ P1 P2 H) as (Hv & r & Hr & Hfin).
  destruct (proj1 (validate_iff _ _ _) Hv) as (_ & _ & Ht).
  destruct r as [v|].
  - subst v. eapply loop_sign; eauto.
  - destruct (range_compare_inv _ _ _ Hfin) as (a & b & _ & _ & Hc).
    eapply compare_helper_sign; eauto.
Qed.

Lemma orderby_compare_sign_witness :
  let p1 := fresh_producer (range_of (VStr "00")) [[item_of [key_of (VStr "b")]]] in
  let p2 := fresh_producer (range_of (VStr "AA")) [[item_of [key_of (VStr "a")]]] in
  exists x,
    fst (_OrderByDocumentProducerComparator.compare paged_anext ["Ascending"] p1 p2)
    = Ok x /\ (x = -1 \/ x = 0 \/ x = 1).
Proof.
  intros p1 p2. exists 1. split; [reflexivity|].
  apply (orderby_compare_sign paged_anext ["Ascending"] p1 p2 1). reflexivity.
Defined.


(** ** Sort orders *)

Lemma loop_unknown_directions (sort_order : list string) (res1 res2 : list dict)
    (i : nat) :
  Forall2 same_type res1 res2 ->
  (i + length res1 <= length sort_order)%nat ->
  Forall (fun d => d <> "Ascending" /\ d <> "Descending") sort_order ->
  _OrderByDocumentProducerComparator.compare_loop sort_order i (zip res1 res2)
  = Ok None.
Proof.
  intros H. revert i. induction H as [|k1 k2 res1 res2 (t & T1 & T2) _ IH]; intros i Hi Hu.
  - reflexivity.
  - cbn [zip_with _OrderByDocumentProducerComparator.compare_loop].
    destruct (classify_of_str _ _ T1) as [a Ha].
    destruct (classify_of_str _ _ T2) as [b Hb].
    rewrite (helper_compare_classify _ _ _ _ Ha Hb). cbn [bind]. cbn [length] in Hi.
    rewrite (IH (S i)) by (auto; lia).
    destruct (negb (kcmp a b =? 0)%Z); [|reflexivity].
    unfold index. destruct (lookup_lt_is_Some_2 sort_order i) as [d Hd]; [lia|].
    rewrite Hd. cbn [bind].
    assert (Hnot : d <> "Ascending" /\ d <> "Descending").
    { rewrite Forall_forall in Hu. apply Hu. eapply list_elem_of_lookup_2. exact Hd. }
    destruct Hnot as [N1 N2].
    destruct (String.eqb_spec d "Ascending"); [contradiction|].
    destruct (String.eqb_spec d "Descending"); [contradiction|]. reflexivity.
Qed.

(** X10.  A sort order that is neither "Ascending" nor "Descending" makes
    the order-by comparator pass over the keys of its position: when no
    sort order is one of the two strings, two accepted key lists are
    compared by the partition-range comparator alone, whatever the keys. *)
Theorem unknown_directions_ignored {C : Type} (next : C -> result item_result * C)
    (sort_order : list string) (p1 p2 p1' p2' : _DocumentProducer.t C)
    (it1 it2 : item_result) :
  _DocumentProducer.peek next p1 = (Ok it1, p1') ->
  _DocumentProducer.peek next p2 = (Ok it2, p2') ->
  _OrderByDocumentProducerComparator._validate_orderby_items
    sort_order (orderByItems it1) (orderByItems it2) = Ok tt ->
  Forall (fun d => d <> "Ascending" /\ d <> "Descending") sort_order ->
  _OrderByDocumentProducerComparator.compare next sort_order p1 p2
  = (_PartitionKeyRangeDocumentProducerComparator.compare p1 p2, (p1', p2')).
Proof.
  intros P1 P2 Hv Hu.
  destruct (proj1 (validate_iff _ _ _) Hv) as (L1 & L2 & Ht).
  rewrite (orderby_compare_peeked next _ _ _ _ _ _ _ P1 P2), Hv. cbn [bind].
  rewrite (loop_unknown_directions sort_order _ _ 0 Ht) by (auto; lia).
  reflexivity.
Qed.

Lemma unknown_directions_ignored_witness :
  let p1 := fresh_producer (range_of (VStr "00")) [[item_of [key_of (VNum 9)]]] in
  let p2 := fresh_producer (range_of (VStr "AA")) [[item_of [key_of (VNum 1)]]] in
  fst (_OrderByDocumentProducerComparator.compare paged_anext ["ascending"] p1 p2)
  = Ok (-1).
Proof.
  intros p1 p2.
  rewrite (unknown_directions_ignored paged_anext ["ascending"] p1 p2 _ _ _ _
             eq_refl eq_refl eq_refl).
  - reflexivity.
  - repeat constructor; discriminate.
Defined.

Lemma loop_flip (sort_order : list string) (pairs : list (dict * dict)) (i : nat)
    (r : option Z) :
  _OrderByDocumentProducerComparator.compare_loop sort_order i pairs = Ok r ->
  _OrderByDocumentProducerComparator.compare_loop
    (map flip_direction sort_order) i pairs = Ok (option_map Z.opp r).
Proof.
  revert i r. induction pairs as [|[k1 k2] rest IH]; intros i r; cbn.
  - intros [= <-]. reflexivity.
  - destruct (_OrderByHelper.compare k1 k2) as [c|]; cbn [bind]; [|discriminate].
    destruct (negb (c =? 0)%Z); [|apply IH].
    unfold index. rewrite list_lookup_fmap.
    destruct (sort_order !! i) as [d|]; cbn [bind fmap option_fmap option_map];
      [|discriminate].
    unfold flip_direction.
    destruct (String.eqb_spec d "Ascending") as [->|N1]; cbn.
    + intros [= <-]. reflexivity.
    + destruct (String.eqb_spec d "Descending") as [->|N2]; cbn.
      * intros [= <-]. cbn. f_equal. f_equal. lia.
      * destruct (String.eqb_spec d "Ascending"); [contradiction|].
        destruct (String.eqb_spec d "Descending"); [contradiction|]. apply IH.
Qed.

(** X11.  Exchanging "Ascending" and "Descending" in every sort order
    negates a result that the keys decide and leaves a tie-break result as
    it is: the partition-range tie-break is never reversed. *)
Theorem direction_flip {C : Type} (next : C -> result item_result * C)
    (sort_order : list string) (p1 p2 p1' p2' : _DocumentProducer.t C)
    (it1 it2 : item_result) (x : Z) :
  _DocumentProducer.peek next p1 = (Ok it1, p1') ->
  _DocumentProducer.peek next p2 = (Ok it2, p2') ->
  fst (_OrderByDocumentProducerComparator.compare next sort_order p1 p2) = Ok x ->
  exists decided,
    _OrderByDocumentProducerComparator.compare_loop sort_order 0
      (zip (orderByItems it1) (orderByItems it2)) = Ok decided /\
    fst (_OrderByDocumentProducerComparator.compare next
           (map flip_direction sort_order) p1 p2)
    = match decided with
      | Some _ => Ok (- x)
      | None => Ok x
      end /\
    (decided = None ->
     _PartitionKeyRangeDocumentProducerComparator.compare p1 p2 = Ok x).
Proof.
  intros P1 P2 H.
  destruct (orderby_compare_inv next _ _ _ _ _ _ _ _ P1 P2 H) as (Hv & r & Hr & Hfin).
  exists r. split; [exact Hr|].
  assert (Hv' : _OrderByDocumentProducerComparator._validate_orderby_items
                  (map flip_direction sort_order) (orderByItems it1) (orderByItems it2)
                = Ok tt).
  { revert Hv. unfold _OrderByDocumentProducerComparator._validate_orderby_items.
    rewrite length_map. auto. }
  rewrite (orderby_compare_intro next _ _ _ _ _ _ _ _ P1 P2 Hv' (loop_flip _ _ _ _ Hr)).
  destruct r as [v|]; cbn [option_map].
  - subst v. split; [reflexivity | discriminate].
  - split; [exact Hfin | intros _; exact Hfin].
Qed.

Lemma direction_flip_witness :
  let p1 := fresh_producer (range_of (VStr "00")) [[item_of [key_of (VNum 1)]]] in
  let p2 := fresh_producer (range_of (VStr "AA")) [[item_of [key_of (VNum 2)]]] in
  exists decided,
    _OrderByDocumentProducerComparator.compare_loop ["Ascending"] 0
      [(key_of (VNum 1), key_of (VNum 2))] = Ok decided /\
    fst (_OrderByDocumentProducerComparator.compare paged_anext
           (map flip_direction ["Ascending"]) p1 p2)
    = match decided with Some _ => Ok (- -1) | None => Ok (-1) end.
Proof.
  intros p1 p2.
  destruct (direction_flip paged_anext ["Ascending"] p1 p2 _ _ _ _ (-1)
              eq_refl eq_refl eq_refl) as (r & Hr & Hc & _).
  exists r. split; [exact Hr | exact Hc].
Defined.

(** ** The non-streaming comparator *)





(** X13.  The non-streaming comparator on short inputs: it raises
    [IndexError] when either item has no order-by item; when the two first
    keys compare equal it returns 0 without reading the sort order, even an
    empty one; when they differ and the sort order is empty it raises
    [IndexError]. *)
Theorem nonstreaming_short_inputs (sort_order : list string)
    (n1 n2 : _NonStreamingItemResultProducer) :
  (orderByItems (_item_result n1) = [] \/ orderByItems (_item_result n2) = [] ->
   _NonStreamingOrderByComparator.compare sort_order n1 n2 = Raise IndexError) /\
  (forall k1 k2 rest1 rest2 res,
      orderByItems (_item_result n1) = k1 :: rest1 ->
      orderByItems (_item_result n2) = k2 :: rest2 ->
      _OrderByHelper.compare k1 k2 = Ok res ->
      (res = 0 ->
       _NonStreamingOrderByComparator.compare sort_order n1 n2 = Ok 0) /\
      (res <> 0 ->
       _NonStreamingOrderByComparator.compare [] n1 n2 = Raise IndexError)).
Proof.
  split.
  - unfold _NonStreamingOrderByComparator.compare, index.
    intros [E | E]; rewrite E; [reflexivity|].
    destruct (orderByItems (_item_result n1) !! 0%nat); reflexivity.
  - intros k1 k2 rest1 rest2 res E1 E2 Hc.
    unfold _NonStreamingOrderByComparator.compare, index. rewrite E1, E2. cbn.
    rewrite Hc. cbn. split.
    + intros ->. reflexivity.
    + intros Hne. destruct (Z.eqb_spec res 0); [contradiction | reflexivity].
Qed.

Lemma nonstreaming_short_inputs_witness :
  let n := fun keys => {| _item_result := item_of keys; _doc_producer_comp := [] |} in
  _NonStreamingOrderByComparator.compare ["Ascending"] (n []) (n [key_of (VNum 1)])
  = Raise IndexError /\
  _NonStreamingOrderByComparator.compare [] (n [key_of (VNum 1)]) (n [key_of (VNum 1)])
  = Ok 0.
Proof.
  intros n. split.
  - apply (proj1 (nonstreaming_short_inputs ["Ascending"] (n []) (n [key_of (VNum 1)]))).
    left. reflexivity.
  - apply (proj2 (nonstreaming_short_inputs [] (n [key_of (VNum 1)]) (n [key_of (VNum 1)]))
             (key_of (VNum 1)) (key_of (VNum 1)) [] [] 0 eq_refl eq_refl eq_refl).
    reflexivity.
Defined.

(** ** The partition-range comparator on string bounds *)

(** X14.  On ranges whose lower bounds are strings the partition-range
    comparator always returns, its result is -1, 0 or 1, it is 0 exactly for
    equal bounds, exchanging the producers negates it, and it is
    transitive. *)
Theorem partition_range_total_order {C : Type} (p1 p2 p3 : _DocumentProducer.t C)
    (s t u : string) :
  _DocumentProducer.get_target_range p1 !! "minInclusive" = Some (VStr s) ->
  _DocumentProducer.get_target_range p2 !! "minInclusive" = Some (VStr t) ->
  _DocumentProducer.get_target_range p3 !! "minInclusive" = Some (VStr u) ->
  exists x y z,
    _PartitionKeyRangeDocumentProducerComparator.compare p1 p2 = Ok x /\
    _PartitionKeyRangeDocumentProducerComparator.compare p2 p3 = Ok y /\
    _PartitionKeyRangeDocumentProducerComparator.compare p1 p3 = Ok z /\
    _PartitionKeyRangeDocumentProducerComparator.compare p2 p1 = Ok (- x) /\
    (x = -1 \/ x = 0 \/ x = 1) /\
    (x = 0 <-> s = t) /\
    (x <= 0 -> y <= 0 -> z <= 0).
Proof.
  intros B1 B2 B3.
  rewrite (range_compare_intro _ _ _ _ B1 B2), (range_compare_intro _ _ _ _ B2 B3),
    (range_compare_intro _ _ _ _ B1 B3), (range_compare_intro _ _ _ _ B2 B1),
    !compare_helper_str.
  exists (sign_of (String.compare s t)), (sign_of (String.compare t u)),
    (sign_of (String.compare s u)).
  split; [reflexivity|]. split; [reflexivity|]. split; [reflexivity|].
  split; [|split; [|split; [split|]]].
  - rewrite (String.compare_antisym t s). destruct (String.compare s t); reflexivity.
  - destruct (String.compare s t); cbn; lia.
  - intros H. apply String.compare_eq_iff.
    destruct (String.compare s t); [reflexivity | discriminate H | discriminate H].
  - intros ->. pose proof (String.compare_antisym t t) as A.
    destruct (String.compare t t); [reflexivity | discriminate A | discriminate A].
  - pose proof (str_ordered3 s t u) as K. unfold ordered3 in K. lia.
Qed.

Lemma partition_range_total_order_witness :
  let p := fun s => fresh_producer (range_of (VStr s)) [] in
  exists x y z,
    _PartitionKeyRangeDocumentProducerComparator.compare (p "00") (p "55") = Ok x /\
    _PartitionKeyRangeDocumentProducerComparator.compare (p "55") (p "AA") = Ok y /\
    _PartitionKeyRangeDocumentProducerComparator.compare (p "00") (p "AA") = Ok z /\
    (x <= 0 -> y <= 0 -> z <= 0).
Proof.
  intros p.
  destruct (partition_range_total_order (p "00") (p "55") (p "AA") "00" "55" "AA"
              eq_refl eq_refl eq_refl) as (x & y & z & H1 & H2 & H3 & _ & _ & _ & H4).
  exists x, y, z. auto.
Defined.

(** ** Compound sort keys *)

Lemma loop_shift (d : string) (sort_order : list string)
    (pairs : list (dict * dict)) (i : nat) :
  _OrderByDocumentProducerComparator.compare_loop (d :: sort_order) (S i) pairs
  = _OrderByDocumentProducerComparator.compare_loop sort_order i pairs.
Proof.
  revert i. induction pairs as [|[k1 k2] rest IH]; intros i; cbn; [reflexivity|].
  destruct (_OrderByHelper.compare k1 k2) as [c|]; cbn [bind]; [|reflexivity].
  rewrite IH. reflexivity.
Qed.

(** X15.  A leading key on which two items tie can be dropped together with
    its sort order: the order-by comparator gives the same result, or raises
    the same exception, as on the remaining keys under the remaining sort
    orders, the partition key ranges being the same. *)
Theorem leading_tie_dropped {C : Type} (next : C -> result item_result * C)
    (d : string) (sort_order : list string)
    (p1 p2 q1 q2 p1' p2' q1' q2' : _DocumentProducer.t C)
    (it1 it2 jt1 jt2 : item_result) (k1 k2 : dict) :
  _DocumentProducer.peek next p1 = (Ok it1, p1') ->
  _DocumentProducer.peek next p2 = (Ok it2, p2') ->
  _DocumentProducer.peek next q1 = (Ok jt1, q1') ->
  _DocumentProducer.peek next q2 = (Ok jt2, q2') ->
  orderByItems it1 = k1 :: orderByItems jt1 ->
  orderByItems it2 = k2 :: orderByItems jt2 ->
  _DocumentProducer.get_target_range q1 = _DocumentProducer.get_target_range p1 ->
  _DocumentProducer.get_target_range q2 = _DocumentProducer.get_target_range p2 ->
  _OrderByHelper.compare k1 k2 = Ok 0 ->
  fst (_OrderByDocumentProducerComparator.compare next (d :: sort_order) p1 p2)
  = fst (_OrderByDocumentProducerComparator.compare next sort_order q1 q2).
Proof.
  intros P1 P2 Q1 Q2 E1 E2 R1 R2 Hc.
  destruct (helper_compare_ok _ _ _ Hc) as (t1 & t2 & T1 & T2 & Heq).
  specialize (Heq eq_refl). subst t2.
  rewrite (orderby_compare_peeked next _ _ _ _ _ _ _ P1 P2).
  rewrite (orderby_compare_peeked next _ _ _ _ _ _ _ Q1 Q2).
  rewrite E1, E2. cbn [fst].
  unfold _OrderByDocumentProducerComparator._validate_orderby_items.
  cbn [length Nat.eqb zip_with _OrderByDocumentProducerComparator.validate_types
       _OrderByDocumentProducerComparator.compare_loop].
  rewrite T1, T2, Hc. cbn [bind Z.eqb negb]. rewrite String.eqb_refl. cbn [negb].
  rewrite loop_shift.
  unfold _PartitionKeyRangeDocumentProducerComparator.compare. rewrite R1, R2.
  reflexivity.
Qed.

Lemma leading_tie_dropped_witness :
  let a := key_of (VStr "x") in
  let p1 := fresh_producer (range_of (VStr "00")) [[item_of [a; key_of (VNum 2)]]] in
  let p2 := fresh_producer (range_of (VStr "AA")) [[item_of [a; key_of (VNum 1)]]] in
  let q1 := fresh_producer (range_of (VStr "00")) [[item_of [key_of (VNum 2)]]] in
  let q2 := fresh_producer (range_of (VStr "AA")) [[item_of [key_of (VNum 1)]]] in
  fst (_OrderByDocumentProducerComparator.compare paged_anext
         ["Descending"; "Ascending"] p1 p2)
  = fst (_OrderByDocumentProducerComparator.compare paged_anext ["Ascending"] q1 q2).
Proof.
  intros a p1 p2 q1 q2.
  apply (leading_tie_dropped paged_anext "Descending" ["Ascending"]
           p1 p2 q1 q2
           (snd (_DocumentProducer.peek paged_anext p1))
           (snd (_DocumentProducer.peek paged_anext p2))
           (snd (_DocumentProducer.peek paged_anext q1))
           (snd (_DocumentProducer.peek paged_anext q2))
           (item_of [a; key_of (VNum 2)]) (item_of [a; key_of (VNum 1)])
           (item_of [key_of (VNum 2)]) (item_of [key_of (VNum 1)]) a a
           eq_refl eq_refl eq_refl eq_refl eq_refl eq_refl eq_refl eq_refl eq_refl).
Defined.

(** ** The single-key comparison *)


